(** * Sprint Coordinator: document tools, session initialisation, streaming relay

    A shallow embedding of the tool layer ([copilot/tools/canvas_tools.py],
    [copilot/tools/sprint_tools.py]) and of the session and streaming glue
    ([backend/app/fastapi_app.py]).

    Python values are JSON values; a [dict] is a finite map with string
    keys (equal when it has the same keys with the same values, as [==] on
    Python dicts; the order of insertion is not kept), a [list] is a list.
    Code that can raise runs in the [outcome] monad, and every
    [try]/[except] of the source is written out.  The files on disk are an
    explicit store that the tools read and replace. *)

From Stdlib Require Import ZArith.
From stdpp Require Import base option list strings pretty gmap fin_maps.

Set Warnings "-register-all".
Set Default Proof Using "Type".

Open Scope string_scope.

(** ** JSON values *)

(** What [json.load] builds: [None], [bool], [int], [float], [str], [list]
    and [dict].  The tools never compute on numbers; a float is carried by
    its literal. *)
Inductive json : Type :=
| JNull
| JBool (b : bool)
| JInt (n : Z)
| JFloat (lit : string)
| JStr (s : string)
| JList (l : list json)
| JDict (m : gmap string json).

(** [type(v).__name__], as CPython prints it in its error texts. *)
Definition type_name (v : json) : string :=
  match v with
  | JNull => "NoneType"
  | JBool _ => "bool"
  | JInt _ => "int"
  | JFloat _ => "float"
  | JStr _ => "str"
  | JList _ => "list"
  | JDict _ => "dict"
  end.

Definition isinstance_dict (v : json) : bool :=
  match v with JDict _ => true | _ => false end.

Definition isinstance_list (v : json) : bool :=
  match v with JList _ => true | _ => false end.

(** [v == s] for a Python [str] [s]: only an equal [str] compares equal. *)
Definition eq_str (v : json) (s : string) : bool :=
  match v with JStr t => String.eqb t s | _ => false end.

(** ** Paths *)

Record path : Type := Path { stem : string; suffix : string }.

#[global] Instance path_eq_dec : EqDecision path.
Proof. solve_decision. Defined.

#[global] Instance path_countable : Countable path.
Proof.
  apply (inj_countable' (λ p, (stem p, suffix p)) (λ q, Path q.1 q.2)).
  by intros [].
Defined.

(** [Path.with_suffix] *)
Definition with_suffix (p : path) (s : string) : path :=
  {| stem := stem p; suffix := s |}.

(** [config.py]: the four documents under [DATA_DIR]. *)
Definition SPRINTS_FILE : path := Path "sprints" ".json".
Definition BMC_FILE : path := Path "bmc" ".json".
Definition VPC_FILE : path := Path "vpc" ".json".
Definition SEGMENTS_FILE : path := Path "segments" ".json".

(** ** Exceptions and outcomes *)

Inductive exn : Type :=
| FileNotFoundError (p : path)
| OSError (p : path)
| JSONDecodeError
| AttributeError (ty attr : string)
| KeyError (key : string)
| TypeError (msg : string)
| HTTPException (status_code : Z) (detail : string)
| RuntimeError (msg : string).

Definition path_str (p : path) : string := stem p +:+ suffix p.

(** [str(e)].  The texts are CPython's; no property below depends on them. *)
Definition str_exn (e : exn) : string :=
  match e with
  | FileNotFoundError p => "[Errno 2] No such file or directory: '" +:+ path_str p +:+ "'"
  | OSError p => "[Errno 13] Permission denied: '" +:+ path_str p +:+ "'"
  | JSONDecodeError => "Expecting value: line 1 column 1 (char 0)"
  | AttributeError ty attr => "'" +:+ ty +:+ "' object has no attribute '" +:+ attr +:+ "'"
  | KeyError key => "'" +:+ key +:+ "'"
  | TypeError msg => msg
  | HTTPException status_code detail => pretty status_code +:+ ": " +:+ detail
  | RuntimeError msg => msg
  end.

Inductive outcome (A : Type) : Type :=
| Returns (a : A)
| Raises (e : exn).
Arguments Returns {A} a.
Arguments Raises {A} e.

#[global] Instance outcome_ret : MRet outcome := λ A a, Returns a.

#[global] Instance outcome_bind : MBind outcome := λ A B k c,
  match c with
  | Returns a => k a
  | Raises e => Raises e
  end.

(** ** Dynamic operations on values *)

(** [v.get(key, default)]: only a [dict] has the method. *)
Definition py_get (v : json) (key : string) (dflt : json) : outcome json :=
  match v with
  | JDict m => Returns (default dflt (m !! key))
  | _ => Raises (AttributeError (type_name v) "get")
  end.

(** [key in v] *)
Definition py_in (key : string) (v : json) : outcome bool :=
  match v with
  | JDict m => Returns (bool_decide (is_Some (m !! key)))
  | JList l => Returns (existsb (λ x, eq_str x key) l)
  | JStr s => Returns (bool_decide (is_Some (String.index 0 key s)))
  | _ => Raises (TypeError ("argument of type '" +:+ type_name v +:+ "' is not iterable"))
  end.

(** [v[key]] with a [str] key *)
Definition py_getitem (v : json) (key : string) : outcome json :=
  match v with
  | JDict m =>
      match m !! key with
      | Some x => Returns x
      | None => Raises (KeyError key)
      end
  | JList _ => Raises (TypeError "list indices must be integers or slices, not str")
  | JStr _ => Raises (TypeError "string indices must be integers, not 'str'")
  | _ => Raises (TypeError ("'" +:+ type_name v +:+ "' object is not subscriptable"))
  end.

(** [v[key] = x] with a [str] key *)
Definition py_setitem (v : json) (key : string) (x : json) : outcome json :=
  match v with
  | JDict m => Returns (JDict (<[key := x]> m))
  | JList _ => Raises (TypeError "list indices must be integers or slices, not str")
  | _ => Raises (TypeError ("'" +:+ type_name v +:+ "' object does not support item assignment"))
  end.

(** [target.update(source)] on two dicts: the keys of [source] win, the
    other keys of [target] stay. *)
Definition dict_update (target source : gmap string json) : gmap string json :=
  source ∪ target.

Fixpoint chars (s : string) : list json :=
  match s with
  | EmptyString => []
  | String c r => JStr (String c EmptyString) :: chars r
  end.

(** The elements a [for] loop draws from [v]: a list gives its elements, a
    dict its keys, a str its characters; nothing else is iterable. *)
Definition py_iter (v : json) : outcome (list json) :=
  match v with
  | JList l => Returns l
  | JDict m => Returns (JStr <$> (map_to_list m).*1)
  | JStr s => Returns (chars s)
  | _ => Raises (TypeError ("'" +:+ type_name v +:+ "' object is not iterable"))
  end.

(** ** Text and files *)

(** A Python [str] given to the JSON decoder, seen through what the decoder
    makes of it: either it decodes to one value, or it does not decode.
    [json.dumps] produces text that decodes to the value it was given. *)
Inductive text : Type :=
| Garbled (raw : string)
| Encodes (v : json).

Definition json_loads (t : text) : outcome json :=
  match t with
  | Garbled _ => Raises JSONDecodeError
  | Encodes v => Returns v
  end.

Definition json_dumps (v : json) : text := Encodes v.

(** A file that exists either cannot be read (permissions, encoding) or
    holds text. *)
Inductive file : Type :=
| Unreadable
| Holds (t : text).

Abbreviation filesystem := (gmap path file).

(** [open(p, 'r', encoding='utf-8')] followed by reading the file. *)
Definition read_file (fs : filesystem) (p : path) : outcome text :=
  match fs !! p with
  | None => Raises (FileNotFoundError p)
  | Some Unreadable => Raises (OSError p)
  | Some (Holds t) => Returns t
  end.

(** Where a save can fail.  [DumpFails written] leaves the temporary file
    with the part written so far. *)
Inductive io_fault : Type :=
| NoFault
| OpenFails
| DumpFails (written : string)
| ReplaceFails.

(** ** Payloads *)

(** A dict display [{k1: v1, ...}] with distinct keys.  Every tool returns
    [json.dumps] of such a payload; the model keeps the payload. *)
Definition py_dict (items : list (string * json)) : json :=
  JDict (list_to_map items).

Definition error_payload (msg : string) : json :=
  py_dict [("error", JStr msg)].

(** * [copilot/tools/canvas_tools.py] *)

Definition _load_json_file (fs : filesystem) (file_path : path) : json :=
  match t ← read_file fs file_path; json_loads t with
  | Returns data => data
  | Raises (FileNotFoundError _) => JDict ∅
  | Raises JSONDecodeError => JDict ∅
  | Raises _ => JDict ∅
  end.

(** Write to the temporary file, then rename it over the document. *)
Definition _save_json_file (io : io_fault) (fs : filesystem)
    (file_path : path) (data : json) : filesystem * bool :=
  let temp_file := with_suffix file_path ".tmp" in
  match io with
  | OpenFails => (fs, false)
  | DumpFails written => (<[temp_file := Holds (Garbled written)]> fs, false)
  | ReplaceFails => (<[temp_file := Holds (json_dumps data)]> fs, false)
  | NoFault =>
      let fs1 := <[temp_file := Holds (json_dumps data)]> fs in
      (<[file_path := Holds (json_dumps data)]> (delete temp_file fs1), true)
  end.

Definition get_business_model_canvas (fs : filesystem) : json :=
  _load_json_file fs BMC_FILE.

Definition get_value_proposition_canvas (fs : filesystem) : json :=
  _load_json_file fs VPC_FILE.

Definition get_customer_segments (fs : filesystem) : json :=
  _load_json_file fs SEGMENTS_FILE.

(** The two blocks shared, word for word, by both canvas updates:
    "Validate section exists or create it" and "Apply updates".  The
    mutation of [data] in place is returned as the new [data]. *)
Definition apply_section_updates (data : json) (section : string)
    (updates_dict : json) : outcome json :=
  present ← py_in section data;
  data ← (if present : bool then Returns data else py_setitem data section (JDict ∅));
  current ← py_getitem data section;
  match current, updates_dict with
  | JDict target, JDict source =>
      (* data[section].update(updates_dict) *)
      py_setitem data section (JDict (dict_update target source))
  | JList _, JList _ => py_setitem data section updates_dict
  | _, _ => py_setitem data section updates_dict
  end.

Definition update_business_model_canvas (io : io_fault) (fs : filesystem)
    (section : string) (updates : text) : filesystem * json :=
  let data := _load_json_file fs BMC_FILE in
  match json_loads updates with
  | Raises _ => (fs, error_payload "Invalid JSON format in updates parameter")
  | Returns updates_dict =>
      match apply_section_updates data section updates_dict with
      | Raises e =>
          (fs, error_payload ("Failed to update Business Model Canvas: " +:+ str_exn e))
      | Returns data =>
          let '(fs, saved) := _save_json_file io fs BMC_FILE data in
          if saved then
            (fs, py_dict [("success", JBool true);
                          ("message", JStr ("Business Model Canvas section '" +:+ section
                                            +:+ "' updated successfully"));
                          ("section", JStr section);
                          ("updates", updates_dict)])
          else (fs, error_payload "Failed to save Business Model Canvas updates")
      end
  end.

Definition update_value_proposition_canvas (io : io_fault) (fs : filesystem)
    (section : string) (updates : text) : filesystem * json :=
  let data := _load_json_file fs VPC_FILE in
  match json_loads updates with
  | Raises _ => (fs, error_payload "Invalid JSON format in updates parameter")
  | Returns updates_dict =>
      match apply_section_updates data section updates_dict with
      | Raises e =>
          (fs, error_payload ("Failed to update Value Proposition Canvas: " +:+ str_exn e))
      | Returns data =>
          let '(fs, saved) := _save_json_file io fs VPC_FILE data in
          if saved then
            (fs, py_dict [("success", JBool true);
                          ("message", JStr ("Value Proposition Canvas section '" +:+ section
                                            +:+ "' updated successfully"));
                          ("section", JStr section);
                          ("updates", updates_dict)])
          else (fs, error_payload "Failed to save Value Proposition Canvas updates")
      end
  end.

(** A list reached through [container.get(key, ...)] and changed in place
    is the list stored under [key]: the change shows in [container]. *)
Definition mutated_in_place (container : json) (key : string) (l : list json) : json :=
  match container with
  | JDict m => JDict (<[key := JList l]> m)
  | _ => container
  end.

(** The loop of [update_customer_segments]: [None] when [updated] stays
    [False], otherwise the list after the assignment and the [break]. *)
Fixpoint update_segment_in (segments : list json) (segment_id : string)
    (updates_dict : json) : outcome (option (list json)) :=
  match segments with
  | [] => Returns None
  | segment :: rest =>
      seg_id ← py_get segment "id" JNull;
      if eq_str seg_id segment_id then
        match segment, updates_dict with
        | JDict target, JDict source =>
            (* segments[i].update(updates_dict) *)
            Returns (Some (JDict (dict_update target source) :: rest))
        | _, _ =>
            (* segments[i] = updates_dict *)
            Returns (Some (updates_dict :: rest))
        end
      else
        r ← update_segment_in rest segment_id updates_dict;
        Returns (option_map (cons segment) r)
  end.

Definition update_customer_segments (io : io_fault) (fs : filesystem)
    (segment_id : string) (updates : text) : filesystem * json :=
  let data := _load_json_file fs SEGMENTS_FILE in
  match json_loads updates with
  | Raises _ => (fs, error_payload "Invalid JSON format in updates parameter")
  | Returns updates_dict =>
      match
        segments ← py_get data "customer_segments" (JList []);
        elements ← py_iter segments;
        update_segment_in elements segment_id updates_dict
      with
      | Raises e =>
          (fs, error_payload ("Failed to update customer segments: " +:+ str_exn e))
      | Returns None =>
          (fs, error_payload ("Customer segment '" +:+ segment_id +:+ "' not found"))
      | Returns (Some segments) =>
          let data := mutated_in_place data "customer_segments" segments in
          let '(fs, saved) := _save_json_file io fs SEGMENTS_FILE data in
          if saved then
            (fs, py_dict [("success", JBool true);
                          ("message", JStr ("Customer segment '" +:+ segment_id
                                            +:+ "' updated successfully"));
                          ("segment_id", JStr segment_id);
                          ("updates", updates_dict)])
          else (fs, error_payload "Failed to save customer segments updates")
      end
  end.

(** * [copilot/tools/sprint_tools.py] *)

Definition empty_sprints : json :=
  py_dict [("sprints", JList []); ("sprint_analysis", JDict ∅)].

Definition _load_sprints_data (fs : filesystem) : json :=
  match t ← read_file fs SPRINTS_FILE; json_loads t with
  | Returns data => data
  | Raises (FileNotFoundError _) => empty_sprints
  | Raises JSONDecodeError => empty_sprints
  | Raises _ => empty_sprints
  end.

Definition _save_sprints_data (io : io_fault) (fs : filesystem) (data : json)
    : filesystem * bool :=
  let temp_file := with_suffix SPRINTS_FILE ".tmp" in
  match io with
  | OpenFails => (fs, false)
  | DumpFails written => (<[temp_file := Holds (Garbled written)]> fs, false)
  | ReplaceFails => (<[temp_file := Holds (json_dumps data)]> fs, false)
  | NoFault =>
      let fs1 := <[temp_file := Holds (json_dumps data)]> fs in
      (<[SPRINTS_FILE := Holds (json_dumps data)]> (delete temp_file fs1), true)
  end.

Definition get_sprint_items (fs : filesystem) : json :=
  _load_sprints_data fs.

(** Inner loop of [get_sprint_item]. *)
Fixpoint find_item_in (items : list json) (item_id : string) : outcome (option json) :=
  match items with
  | [] => Returns None
  | item :: rest =>
      id ← py_get item "item_id" JNull;
      if eq_str id item_id then Returns (Some item)
      else find_item_in rest item_id
  end.

(** Outer loop of [get_sprint_item]. *)
Fixpoint find_item_in_sprints (sprints : list json) (item_id : string)
    : outcome (option json) :=
  match sprints with
  | [] => Returns None
  | sprint :: rest =>
      items ← py_get sprint "items" (JList []);
      elements ← py_iter items;
      found ← find_item_in elements item_id;
      match found with
      | Some item => Returns (Some item)
      | None => find_item_in_sprints rest item_id
      end
  end.

Definition get_sprint_item (fs : filesystem) (item_id : string) : json :=
  let data := _load_sprints_data fs in
  match
    sprints ← py_get data "sprints" (JList []);
    elements ← py_iter sprints;
    find_item_in_sprints elements item_id
  with
  | Returns (Some item) => item
  | Returns None => error_payload ("Sprint item '" +:+ item_id +:+ "' not found")
  | Raises e => error_payload ("Failed to get sprint item: " +:+ str_exn e)
  end.

Definition valid_statuses : list string := ["pending"; "in_progress"; "completed"].

(** [repr] of a list of plain strings, as the f-string prints it. *)
Definition repr_list (l : list string) : string :=
  "[" +:+ String.concat ", " ((λ s, "'" +:+ s +:+ "'") <$> l) +:+ "]".

(** Inner loop of [update_sprint_item_status]: [None] when no item of this
    sprint matches, otherwise the items after the two assignments. *)
Fixpoint update_item_in (items : list json) (item_id status notes : string)
    : outcome (option (list json)) :=
  match items with
  | [] => Returns None
  | item :: rest =>
      id ← py_get item "item_id" JNull;
      if eq_str id item_id then
        item ← py_setitem item "status" (JStr status);
        item ← (if bool_decide (notes ≠ "")
                then py_setitem item "notes" (JStr notes)
                else Returns item);
        Returns (Some (item :: rest))
      else
        r ← update_item_in rest item_id status notes;
        Returns (option_map (cons item) r)
  end.

(** Outer loop: stops at the first sprint in which an item was updated. *)
Fixpoint update_item_in_sprints (sprints : list json) (item_id status notes : string)
    : outcome (option (list json)) :=
  match sprints with
  | [] => Returns None
  | sprint :: rest =>
      items ← py_get sprint "items" (JList []);
      elements ← py_iter items;
      r ← update_item_in elements item_id status notes;
      match r with
      | Some items => Returns (Some (mutated_in_place sprint "items" items :: rest))
      | None =>
          r ← update_item_in_sprints rest item_id status notes;
          Returns (option_map (cons sprint) r)
      end
  end.

Definition update_sprint_item_status (io : io_fault) (fs : filesystem)
    (item_id status notes : string) : filesystem * json :=
  let data := _load_sprints_data fs in
  if bool_decide (status ∉ valid_statuses) then
    (fs, error_payload ("Invalid status '" +:+ status +:+ "'. Must be one of: "
                        +:+ repr_list valid_statuses))
  else
    match
      sprints ← py_get data "sprints" (JList []);
      elements ← py_iter sprints;
      update_item_in_sprints elements item_id status notes
    with
    | Raises e =>
        (fs, error_payload ("Failed to update sprint item status: " +:+ str_exn e))
    | Returns None =>
        (fs, error_payload ("Sprint item '" +:+ item_id +:+ "' not found"))
    | Returns (Some sprints) =>
        let data := mutated_in_place data "sprints" sprints in
        let '(fs, saved) := _save_sprints_data io fs data in
        if saved then
          (fs, py_dict [("success", JBool true);
                        ("message", JStr ("Sprint item '" +:+ item_id
                                          +:+ "' status updated to '" +:+ status +:+ "'"));
                        ("item_id", JStr item_id);
                        ("status", JStr status);
                        ("notes", JStr notes)])
        else (fs, error_payload "Failed to save updated sprint data")
    end.

(** * [backend/app/fastapi_app.py]: sessions *)

(** The part of an ADK session the application touches. *)
Record Session : Type := {
  id : string;
  app_name : string;
  user_id : string;
  state : gmap string json;
}.

(** [session.state[key] = value] *)
Definition state_set (key : string) (value : json) (s : Session) : Session :=
  {| id := id s; app_name := app_name s; user_id := user_id s;
     state := <[key := value]> (state s) |}.

(** An entry of [active_sessions]. *)
Record entry : Type := {
  session : Session;
  sprint_item_id : string;
}.

(** The module globals: [session_service] ([None] until the lifespan hook
    has run) and [active_sessions]. *)
Record server (service : Type) : Type := {
  session_service : option service;
  active_sessions : gmap string entry;
}.
Arguments session_service {service} _.
Arguments active_sessions {service} _.

Record ChatRequest : Type := {
  req_sprint_item_id : string;
  req_message : string;
  req_session_id : string;
}.

Section sessions.
(** The session service is the ADK's: its state is some type [service],
    and [create_session svc app_name user_id session_id] either raises or
    returns the session it made, with the service's next state. *)
Context {service : Type}.
Variable create_session :
  service → string → string → string → outcome (service * Session).

(** [config.py]: read from the environment. *)
Variables APP_NAME DEFAULT_USER_ID : string.

Definition initialize_session (srv : server service)
    (session_id sprint_item_id : string) : server service * outcome Session :=
  match session_service srv with
  | None => (srv, Raises (HTTPException 500 "Session service not initialized"))
  | Some svc =>
      match create_session svc APP_NAME DEFAULT_USER_ID session_id with
      | Raises e =>
          (srv, Raises (HTTPException 500
                          ("Failed to initialize session: " +:+ str_exn e)))
      | Returns (svc, session) =>
          let session := state_set "current_sprint_item" (JStr sprint_item_id) session in
          let session := state_set "current_phase" (JStr "design") session in
          let session := state_set "phase_summaries" (JDict ∅) session in
          let session := state_set "user_preferences" (JDict ∅) session in
          let session := state_set "workflow_progress" (JDict ∅) session in
          ({| session_service := Some svc;
              active_sessions :=
                <[session_id := {| session := session;
                                   sprint_item_id := sprint_item_id |}]>
                  (active_sessions srv) |},
           Returns session)
      end
  end.

Definition init_chat (srv : server service) (request : ChatRequest)
    : server service * outcome json :=
  match initialize_session srv (req_session_id request) (req_sprint_item_id request) with
  | (srv, Returns _) =>
      (srv, Returns (py_dict
         [("message", JStr "Chat session initialized successfully");
          ("session_id", JStr (req_session_id request));
          ("sprint_item_id", JStr (req_sprint_item_id request));
          ("phase", JStr "design")]))
  | (srv, Raises e) => (srv, Raises (HTTPException 500 (str_exn e)))
  end.
End sessions.

(** * [backend/app/fastapi_app.py]: the streaming relay *)

(** [Part.text] is [None] when the part has no text attribute or the
    attribute is [None]. *)
Record Part : Type := { part_text : option string }.

Record Content : Type := { parts : option (list Part) }.

(** An engine event: [is_final_response] is the ADK's verdict on it. *)
Record Event : Type := {
  author : string;
  content : option Content;
  partial : option bool;
  is_final_response : bool;
}.

(** What [runner.run_async] does when iterated: yield an event and go on,
    stop, or raise. *)
Inductive engine_run : Type :=
| Stops
| Fails (e : exn)
| Yields (event : Event) (rest : engine_run).

(** The guard of the loop body: the text of the first part, when the event
    is the coordinator's and that text is not empty. *)
Definition text_chunk (event : Event) : option string :=
  if bool_decide (author event = "sprint_coordinator") then
    c ← content event;
    ps ← parts c;
    p ← head ps;
    t ← part_text p;
    if bool_decide (t = "") then None else Some t
  else None.

(** The [async for] loop inside the [try]; the result is what
    [websocket.send_text] was called with, in order.  The connection is
    taken to be open: every send goes through. *)
Fixpoint forward (run : engine_run) : list string :=
  match run with
  | Stops => []
  | Fails _ => ["Something went wrong. Please try again."]
  | Yields event rest =>
      match text_chunk event with
      | Some chunk =>
          if bool_decide (partial event = Some true) then chunk :: forward rest
          else if is_final_response event then ["--streaming ended--"]
          else forward rest
      | None => forward rest
      end
  end.

Section relay.
(** [runner.run_async(user_id, session_id, new_message)] *)
Variable run_async : string → string → string → engine_run.

(** [agent_ready] is [master_agent is not None and session_service is not
    None]. *)
Definition stream_agent_response_websocket (agent_ready : bool)
    (user_id session_id message sprint_item_id : string) : list string :=
  if agent_ready then forward (run_async user_id session_id message)
  else ["Agent not initialized. Please try again."].
End relay.

(** * The specification's notions

    Definitions that follow the wording of the specification, to state the
    properties with. *)

(** "Keys are merged (patch wins on conflict, other keys preserved)". *)
Definition merge_keys (existing patch : gmap string json) : gmap string json :=
  merge (λ old new, match new with Some v => Some v | None => old end) existing patch.

(** Merge-on-matching-shape: two mappings merge, a sequence replaces a
    sequence, and in any other combination, a missing key included, the
    patch is the new value. *)
Definition merge_on_matching_shape (existing : option json) (patch : json) : json :=
  match existing, patch with
  | Some (JDict old), JDict new => JDict (merge_keys old new)
  | Some (JList _), JList new => JList new
  | _, _ => patch
  end.

(** [l !! i] is the first element of [l] that is a record whose [field] is
    the string [ident]; the elements before it are records too. *)
Definition first_match_at (field ident : string) (l : list json) (i : nat)
    (record : gmap string json) : Prop :=
  l !! i = Some (JDict record) ∧
  record !! field = Some (JStr ident) ∧
  ∀ j, j < i → ∃ r, l !! j = Some (JDict r) ∧ r !! field ≠ Some (JStr ident).

(** Every element of [l] is a record, and none has [field] equal to the
    string [ident]. *)
Definition no_match (field ident : string) (l : list json) : Prop :=
  ∀ x, x ∈ l → ∃ r, x = JDict r ∧ r !! field ≠ Some (JStr ident).

(** A small Business Model Canvas on disk (the same document stands for
    the Value Proposition Canvas), and a patch for one section. *)
Definition bmc_sample : gmap string json :=
  <["Key Partners" := py_dict [("suppliers", JInt 2); ("banks", JInt 1)]]>
    (<["Channels" := JList [JStr "web"]]> ∅).

Definition fs_sample : filesystem :=
  <[BMC_FILE := Holds (Encodes (JDict bmc_sample))]>
    (<[VPC_FILE := Holds (Encodes (JDict bmc_sample))]> ∅).

Definition patch_sample : json :=
  py_dict [("banks", JInt 3); ("insurers", JInt 4)].

(** What the loop body leaves at the matching position. *)
Definition updated_element (record : gmap string json) (updates_dict : json) : json :=
  match updates_dict with
  | JDict source => JDict (dict_update record source)
  | _ => updates_dict
  end.

Definition segment_success (segment_id : string) (updates_dict : json) : json :=
  py_dict [("success", JBool true);
           ("message", JStr ("Customer segment '" +:+ segment_id
                             +:+ "' updated successfully"));
           ("segment_id", JStr segment_id);
           ("updates", updates_dict)].

(** Two segment records on disk. *)
Definition seg_01 : gmap string json :=
  list_to_map [("id", JStr "seg_01"); ("archetype", JStr "Student")].

Definition seg_03 : gmap string json :=
  list_to_map [("id", JStr "seg_03"); ("archetype", JStr "Founder");
               ("pain_points", JList [JStr "churn"])].

Definition segments_sample : list json := [JDict seg_01; JDict seg_03].

Definition segments_doc : gmap string json :=
  {["customer_segments" := JList segments_sample]}.

Definition fs_segments : filesystem :=
  {[SEGMENTS_FILE := Holds (Encodes (JDict segments_doc))]}.

Definition pain_points_patch : gmap string json :=
  {["pain_points" := JList [JStr "slow onboarding"]]}.

Definition seg_03_updated : gmap string json :=
  list_to_map [("id", JStr "seg_03"); ("archetype", JStr "Founder");
               ("pain_points", JList [JStr "slow onboarding"])].

(** The item record after the two assignments of the loop body. *)
Definition item_after (item : gmap string json) (status notes : string)
    : gmap string json :=
  let item := <["status" := JStr status]> item in
  if bool_decide (notes ≠ "") then <["notes" := JStr notes]> item else item.

(** The first item with the given id, in the order the loops visit: it is
    item [j] of sprint [i]; the sprints before [i] are records whose items
    can be iterated and hold records with other ids only. *)
Definition first_item_at (item_id : string) (sprints : list json) (i j : nat)
    (sprint : gmap string json) (items : list json) (item : gmap string json) : Prop :=
  sprints !! i = Some (JDict sprint) ∧
  sprint !! "items" = Some (JList items) ∧
  first_match_at "item_id" item_id items j item ∧
  ∀ i', i' < i →
    ∃ sprint' elements,
      sprints !! i' = Some (JDict sprint') ∧
      py_iter (default (JList []) (sprint' !! "items")) = Returns elements ∧
      no_match "item_id" item_id elements.

Definition sprint_success (item_id status notes : string) : json :=
  py_dict [("success", JBool true);
           ("message", JStr ("Sprint item '" +:+ item_id
                             +:+ "' status updated to '" +:+ status +:+ "'"));
           ("item_id", JStr item_id);
           ("status", JStr status);
           ("notes", JStr notes)].

(** The reply carries [success: true]. *)
Definition is_success (reply : json) : Prop :=
  ∃ m, reply = JDict m ∧ m !! "success" = Some (JBool true).

(** A sprints document with two sprints. *)
Definition s1_item_1 : gmap string json :=
  list_to_map [("item_id", JStr "s1_item_1"); ("task", JStr "Interview ten users");
               ("status", JStr "pending"); ("notes", JStr "first round")].

Definition s1_item_2 : gmap string json :=
  list_to_map [("item_id", JStr "s1_item_2"); ("task", JStr "Draft landing page");
               ("status", JStr "pending"); ("assignee", JStr "user1234")].

Definition s2_item_1 : gmap string json :=
  list_to_map [("item_id", JStr "s2_item_1"); ("task", JStr "Price test");
               ("status", JStr "in_progress"); ("notes", JStr "keep")].

Definition sprint_1 : gmap string json :=
  list_to_map [("sprint_id", JStr "s1"); ("title", JStr "Discovery");
               ("items", JList [JDict s1_item_1; JDict s1_item_2])].

Definition sprint_2 : gmap string json :=
  list_to_map [("sprint_id", JStr "s2"); ("title", JStr "Pricing");
               ("items", JList [JDict s2_item_1])].

Definition sprints_doc : gmap string json :=
  list_to_map [("sprints", JList [JDict sprint_1; JDict sprint_2]);
               ("sprint_analysis", py_dict [("velocity", JInt 3)])].

Definition fs_sprints : filesystem :=
  {[SPRINTS_FILE := Holds (Encodes (JDict sprints_doc))]}.

(** The ADK's in-memory session service, as far as [create_session] goes:
    sessions are kept by id; an id the service already holds is refused
    with an already-exists error (carried here by its text), and otherwise
    a fresh session with an empty state is stored under the id and a copy
    of it is handed out. *)
Definition strict_create_session (svc : gmap string Session)
    (app user sid : string) : outcome (gmap string Session * Session) :=
  match svc !! sid with
  | Some _ => Raises (RuntimeError ("Session with id " +:+ sid +:+ " already exists."))
  | None =>
      let fresh := {| id := sid; app_name := app; user_id := user; state := ∅ |} in
      Returns (<[sid := fresh]> svc, fresh)
  end.

Definition chat_request_sample : ChatRequest :=
  {| req_sprint_item_id := "s1_item_2"; req_message := ""; req_session_id := "s1" |}.

(** The two terminal frames: the completion marker and the error message. *)
Definition is_terminal (frame : string) : bool :=
  bool_decide (frame = "--streaming ended--") ||
  bool_decide (frame = "Something went wrong. Please try again.").

(** The text increments of the coordinator, in generation order, up to the
    point where the loop leaves. *)
Fixpoint increments (run : engine_run) : list string :=
  match run with
  | Yields event rest =>
      match text_chunk event with
      | Some chunk =>
          if bool_decide (partial event = Some true) then chunk :: increments rest
          else if is_final_response event then []
          else increments rest
      | None => increments rest
      end
  | _ => []
  end.

(** The frame that closes the turn, if any. *)
Fixpoint closing (run : engine_run) : option string :=
  match run with
  | Stops => None
  | Fails _ => Some "Something went wrong. Please try again."
  | Yields event rest =>
      match text_chunk event with
      | Some chunk =>
          if bool_decide (partial event = Some true) then closing rest
          else if is_final_response event then Some "--streaming ended--"
          else closing rest
      | None => closing rest
      end
  end.

Definition partial_event (who chunk : string) : Event :=
  {| author := who;
     content := Some {| parts := Some [{| part_text := Some chunk |}] |};
     partial := Some true;
     is_final_response := false |}.

Definition final_event (who : string) (texts : list string) : Event :=
  {| author := who;
     content := Some {| parts := Some ((λ t, {| part_text := Some t |}) <$> texts) |};
     partial := None;
     is_final_response := true |}.

(** The coordinator streams two increments and ends on a final response
    that carries no text. *)
Definition run_final_without_text : engine_run :=
  Yields (partial_event "sprint_coordinator" "Hel")
    (Yields (partial_event "sprint_coordinator" "lo")
       (Yields (final_event "sprint_coordinator" []) Stops)).

(** The engine yields nothing and stops. *)
Definition run_empty : engine_run := Stops.

(** * More of [copilot/tools/sprint_tools.py] *)

(** Inner loop of [get_user_sprint_items]: the items appended to
    [sprint_info["items"]], in order. *)
Fixpoint items_assigned_to (items : list json) (user_id : string)
    : outcome (list json) :=
  match items with
  | [] => Returns []
  | item :: rest =>
      assignee ← py_get item "assignee" JNull;
      kept ← items_assigned_to rest user_id;
      Returns (if eq_str assignee user_id then item :: kept else kept)
  end.

(** Outer loop of [get_user_sprint_items]: [user_items] at the end. *)
Fixpoint sprints_assigned_to (sprints : list json) (user_id : string)
    : outcome (list json) :=
  match sprints with
  | [] => Returns []
  | sprint :: rest =>
      sprint_id ← py_get sprint "sprint_id" JNull;
      title ← py_get sprint "title" JNull;
      goal ← py_get sprint "goal" JNull;
      items ← py_get sprint "items" (JList []);
      elements ← py_iter items;
      kept ← items_assigned_to elements user_id;
      user_items ← sprints_assigned_to rest user_id;
      Returns (match kept with
               | [] => user_items
               | _ :: _ =>
                   py_dict [("sprint_id", sprint_id); ("title", title);
                            ("goal", goal); ("items", JList kept)] :: user_items
               end)
  end.

(** [len(sprint["items"])] for an entry of [user_items]; the entries are
    built by the loop above, so each is a dict whose ["items"] is a list. *)
Definition len_items (sprint_info : json) : Z :=
  match sprint_info with
  | JDict m =>
      match m !! "items" with
      | Some (JList l) => Z.of_nat (length l)
      | _ => 0
      end
  | _ => 0
  end.

(** [sum(len(sprint["items"]) for sprint in user_items)] *)
Definition total_items (user_items : list json) : Z :=
  foldr (λ sprint_info acc, (len_items sprint_info + acc)%Z) 0%Z user_items.

Definition get_user_sprint_items (fs : filesystem) (user_id : string) : json :=
  let data := _load_sprints_data fs in
  match
    sprints ← py_get data "sprints" (JList []);
    elements ← py_iter sprints;
    sprints_assigned_to elements user_id
  with
  | Returns user_items =>
      py_dict [("user_id", JStr user_id);
               ("sprints", JList user_items);
               ("total_items", JInt (total_items user_items))]
  | Raises e => error_payload ("Failed to get user sprint items: " +:+ str_exn e)
  end.

(** * More of [backend/app/fastapi_app.py] *)

Section endpoints.
(** [_get_sprint_item] comes from the backend's tools package; the endpoint
    is modelled over whatever text it returns.  [py_str] is Python's [str]
    on a decoded value, used when the detail of an exception is printed. *)
Variable _get_sprint_item : string → text.
Variable py_str : json → string.

(** [GET /api/sprints/{item_id}] *)
Definition get_sprint_item_by_id (item_id : string) : outcome json :=
  match
    data ← json_loads (_get_sprint_item item_id);
    has_error ← py_in "error" data;
    if has_error : bool then
      detail ← py_getitem data "error";
      Raises (HTTPException 404 (py_str detail))
    else Returns data
  with
  | Returns data => Returns data
  | Raises e => Raises (HTTPException 500 (str_exn e))
  end.
End endpoints.

(** The payload of one server-sent event; the generator yields
    ["data: " + json.dumps(payload)] followed by a blank line. *)
Definition sse_error (msg session_id : string) : json :=
  py_dict [("type", JStr "error"); ("message", JStr msg);
           ("session_id", JStr session_id)].

Definition sse_final (final_response : option string) (session_id : string) : json :=
  py_dict [("type", JStr "final");
           ("message", from_option JStr JNull final_response);
           ("session_id", JStr session_id)].

Definition sse_partial (chunk session_id : string) : json :=
  py_dict [("type", JStr "partial"); ("message", JStr chunk);
           ("session_id", JStr session_id)].

Definition sse_complete (session_id : string) : json :=
  py_dict [("type", JStr "complete"); ("session_id", JStr session_id)].

(** [event.content.parts[0].text]: the text, or the [str] of the exception
    raised on the way ([content] is [None], [parts] is [None], [parts] is
    empty). *)
Definition first_part_text (event : Event) : string + option string :=
  match content event with
  | None => inl "'NoneType' object has no attribute 'parts'"
  | Some c =>
      match parts c with
      | None => inl "'NoneType' object is not subscriptable"
      | Some [] => inl "list index out of range"
      | Some (p :: _) => inr (part_text p)
      end
  end.

(** The [elif] branch: one partial payload for each part with text. *)
Definition sse_partials (event : Event) (session_id : string) : list json :=
  match content event with
  | None => []
  | Some c =>
      match parts c with
      | None => []
      | Some ps =>
          omap (λ p, match part_text p with
                     | Some t => if bool_decide (t = "") then None
                                 else Some (sse_partial t session_id)
                     | None => None
                     end) ps
      end
  end.

(** The [async for] loop of [stream_agent_response_sse] with the completion
    signal after it and the handler of the [try] around it. *)
Fixpoint sse_events (session_id : string) (run : engine_run) : list json :=
  match run with
  | Stops => [sse_complete session_id]
  | Fails e => [sse_error (str_exn e) session_id]
  | Yields event rest =>
      if is_final_response event then
        match first_part_text event with
        | inl msg => [sse_error msg session_id]
        | inr final_response =>
            sse_final final_response session_id :: sse_events session_id rest
        end
      else (sse_partials event session_id ++ sse_events session_id rest)%list
  end.

Section sse.
Variable run_async : string → string → string → engine_run.
Variable DEFAULT_USER_ID : string.

Definition stream_agent_response_sse (agent_ready : bool)
    (active_sessions : gmap string entry) (session_id message : string) : list json :=
  if agent_ready then
    match active_sessions !! session_id with
    | None =>
        [sse_error "Session not found. Please initialize chat first." session_id]
    | Some _ => sse_events session_id (run_async DEFAULT_USER_ID session_id message)
    end
  else [sse_error "Agent not initialized" session_id].
End sse.

(** * Notions for further properties *)

(** What a canvas document becomes under an update that is saved: a text
    that does not decode, or a document that is not a mapping, changes
    nothing. *)
Definition canvas_after (data : json) (section : string) (updates : text) : json :=
  match updates, data with
  | Encodes patch, JDict doc =>
      JDict (<[section := merge_on_matching_shape (doc !! section) patch]> doc)
  | _, _ => data
  end.

(** No sprint holds an item with the given id: every sprint is a record
    whose items can be iterated and are records with other ids. *)
Definition no_item_in (item_id : string) (sprints : list json) : Prop :=
  ∀ x, x ∈ sprints →
    ∃ sprint elements,
      x = JDict sprint ∧
      py_iter (default (JList []) (sprint !! "items")) = Returns elements ∧
      no_match "item_id" item_id elements.

(** The items of a sprint, when it is a record that stores a list. *)
Definition sprint_items (sprint : json) : list json :=
  match sprint with
  | JDict m =>
      match m !! "items" with
      | Some (JList l) => l
      | _ => []
      end
  | _ => []
  end.

(** The item is a record whose assignee is the string [user_id]. *)
Definition assigned_to (user_id : string) (item : json) : bool :=
  match item with
  | JDict m => eq_str (default JNull (m !! "assignee")) user_id
  | _ => false
  end.

(** The events of a run, in the order the engine yields them. *)
Fixpoint run_events (run : engine_run) : list Event :=
  match run with
  | Yields event rest => event :: run_events rest
  | _ => []
  end.

(** The run with the events of every author but the coordinator taken out. *)
Fixpoint coordinator_only (run : engine_run) : engine_run :=
  match run with
  | Yields event rest =>
      if bool_decide (author event = "sprint_coordinator")
      then Yields event (coordinator_only rest)
      else coordinator_only rest
  | _ => run
  end.

(** The ["type"] of a server-sent payload. *)
Definition frame_type (frame : json) : option json :=
  match frame with
  | JDict m => m !! "type"
  | _ => None
  end.

(** Every sprint is a record whose items, when present, are a list of
    records. *)
Definition sprint_records (sprints : list json) : Prop :=
  ∀ x, x ∈ sprints →
    ∃ m items,
      x = JDict m ∧
      default (JList []) (m !! "items") = JList items ∧
      ∀ y, y ∈ items → isinstance_dict y = true.

(** [record.get(key)] on a record. *)
Definition field (record : json) (key : string) : json :=
  match record with
  | JDict m => default JNull (m !! key)
  | _ => JNull
  end.

(** The entry of the reply for one sprint: none when no item of the sprint
    is assigned to the user, otherwise the sprint's id, title and goal with
    the assigned items in their order. *)
Definition sprint_info_for (user_id : string) (sprint : json) : option json :=
  match filter (λ item, assigned_to user_id item) (sprint_items sprint) with
  | [] => None
  | kept =>
      Some (py_dict [("sprint_id", field sprint "sprint_id");
                     ("title", field sprint "title");
                     ("goal", field sprint "goal");
                     ("items", JList kept)])
  end.

(** * Calls that interleave

    A call of [update_business_model_canvas] touches the file twice: it
    loads the document first and saves it last, and holds the merged
    document in memory in between.  Nothing in the tools keeps a second
    call from running between the two. *)












(** The server after a first [init_chat] for session [s1]. *)
Definition server_after_init : server (gmap string Session) :=
  (init_chat strict_create_session "sprint_coordinator" "user1234"
     {| session_service := Some ∅; active_sessions := ∅ |} chat_request_sample).1.

(** * Loading *)

Lemma load_json_file_lookup (fs : filesystem) (p : path) :
  _load_json_file fs p =
    match fs !! p with
    | Some (Holds (Encodes doc)) => doc
    | _ => JDict ∅
    end.
Proof.
  unfold _load_json_file, read_file.
  destruct (fs !! p) as [[|[raw|doc]]|]; reflexivity.
Qed.

Lemma load_sprints_data_lookup (fs : filesystem) :
  _load_sprints_data fs =
    match fs !! SPRINTS_FILE with
    | Some (Holds (Encodes doc)) => doc
    | _ => empty_sprints
    end.
Proof.
  unfold _load_sprints_data, read_file.
  destruct (fs !! SPRINTS_FILE) as [[|[raw|doc]]|]; reflexivity.
Qed.

(** C7.  A document whose file is missing, holds text that does not decode,
    or cannot be read loads as the empty default: [{"sprints": [],
    "sprint_analysis": {}}] for the sprints document, [{}] for the canvases
    and the segments.  A file that holds a document loads as that
    document. *)
Theorem load_default_or_document (fs : filesystem) (p : path) (doc : json) :
  ((fs !! p = None ∨ (∃ raw, fs !! p = Some (Holds (Garbled raw))) ∨
      fs !! p = Some Unreadable) →
     _load_json_file fs p = JDict ∅) ∧
  (fs !! p = Some (Holds (Encodes doc)) → _load_json_file fs p = doc) ∧
  ((fs !! SPRINTS_FILE = None ∨ (∃ raw, fs !! SPRINTS_FILE = Some (Holds (Garbled raw))) ∨
      fs !! SPRINTS_FILE = Some Unreadable) →
     _load_sprints_data fs =
       JDict (<["sprints" := JList []]> (<["sprint_analysis" := JDict ∅]> ∅))) ∧
  (fs !! SPRINTS_FILE = Some (Holds (Encodes doc)) → _load_sprints_data fs = doc).
Proof.
  rewrite load_json_file_lookup, load_sprints_data_lookup.
  repeat split.
  - intros [-> | [[raw ->] | ->]]; reflexivity.
  - intros ->; reflexivity.
  - intros [-> | [[raw ->] | ->]]; reflexivity.
  - intros ->; reflexivity.
Qed.

Lemma load_default_or_document_witness :
  get_business_model_canvas ∅ = JDict ∅ ∧
  get_customer_segments {[SEGMENTS_FILE := Holds (Garbled "{oops")]} = JDict ∅ ∧
  get_value_proposition_canvas {[VPC_FILE := Holds (Encodes (JList [JInt 1]))]}
    = JList [JInt 1] ∧
  get_sprint_items {[SPRINTS_FILE := Unreadable]} = empty_sprints ∧
  get_sprint_items {[SPRINTS_FILE := Holds (Encodes (JDict ∅))]} = JDict ∅.
Proof.
  refine (conj _ (conj _ (conj _ (conj _ _)))).
  - apply (load_default_or_document ∅ BMC_FILE JNull). left. reflexivity.
  - apply (load_default_or_document _ SEGMENTS_FILE JNull).
    right; left. exists "{oops". reflexivity.
  - apply (load_default_or_document _ VPC_FILE). reflexivity.
  - apply (load_default_or_document {[SPRINTS_FILE := Unreadable]} SPRINTS_FILE JNull).
    right; right. reflexivity.
  - apply (load_default_or_document _ SPRINTS_FILE). reflexivity.
Defined.

(** * Canvas updates *)

Lemma merge_keys_lookup (existing patch : gmap string json) (k : string) :
  merge_keys existing patch !! k =
    match patch !! k with
    | Some v => Some v
    | None => existing !! k
    end.
Proof.
  unfold merge_keys. rewrite lookup_merge.
  destruct (existing !! k), (patch !! k); reflexivity.
Qed.

(** The code's [update] and the specification's merge are the same map. *)
Lemma dict_update_merge_keys (target source : gmap string json) :
  dict_update target source = merge_keys target source.
Proof.
  apply map_eq. intros k. rewrite merge_keys_lookup.
  unfold dict_update. rewrite lookup_union.
  destruct (source !! k), (target !! k); reflexivity.
Qed.

Lemma apply_section_updates_dict (doc : gmap string json) (section : string)
    (patch : json) :
  apply_section_updates (JDict doc) section patch =
    Returns (JDict (<[section := merge_on_matching_shape (doc !! section) patch]> doc)).
Proof.
  unfold apply_section_updates. cbn.
  destruct (doc !! section) as [current|] eqn:Hsec.
  - rewrite bool_decide_eq_true_2 by eauto. cbn. rewrite Hsec.
    destruct current, patch; cbn; try reflexivity.
    by rewrite dict_update_merge_keys.
  - rewrite bool_decide_eq_false_2 by (intros [? ?]; congruence). cbn.
    rewrite lookup_insert_eq.
    destruct patch; cbn; rewrite ?insert_insert_eq; try reflexivity.
    unfold dict_update. by rewrite (right_id_L ∅ (∪)).
Qed.

Lemma save_json_file_then_load (fs : filesystem) (p : path) (data : json) :
  (_save_json_file NoFault fs p data).2 = true ∧
  _load_json_file (_save_json_file NoFault fs p data).1 p = data.
Proof.
  split; [reflexivity|].
  rewrite load_json_file_lookup. cbn. by rewrite lookup_insert_eq.
Qed.

(** A save touches the document and its temporary file only. *)
Lemma save_json_file_other (io : io_fault) (fs : filesystem) (p q : path) (data : json) :
  q ≠ p → q ≠ with_suffix p ".tmp" →
  (_save_json_file io fs p data).1 !! q = fs !! q.
Proof.
  intros Hp Ht. destruct io; cbn;
    rewrite ?lookup_insert_ne, ?lookup_delete_ne, ?lookup_insert_ne by done; done.
Qed.

(** A save that fails leaves the document as it was. *)
Lemma save_json_file_failure (io : io_fault) (fs : filesystem) (p : path) (data : json) :
  (_save_json_file io fs p data).2 = false →
  suffix p ≠ ".tmp" →
  (_save_json_file io fs p data).1 !! p = fs !! p.
Proof.
  intros Hfail Hsuf.
  assert (with_suffix p ".tmp" ≠ p) as Hne.
  { intros Heq. apply Hsuf. by rewrite <- Heq. }
  destruct io; cbn in *; try discriminate; rewrite ?lookup_insert_ne by done; done.
Qed.

(** C1.  With the canvas document a mapping [doc] and the save succeeding,
    an update of [section] with a well-formed [patch] followed by a load
    yields a mapping whose value at [section] is the merge-on-matching-shape
    of the previous value and the patch (two mappings: keys merged, patch
    wins; two sequences: patch replaces; otherwise, a missing key included:
    the patch verbatim), every other top-level key being unchanged.  Both
    canvases. *)
Theorem canvas_update_then_load (fs : filesystem) (section : string) (patch : json)
    (doc : gmap string json) :
  (get_business_model_canvas fs = JDict doc →
   ∃ doc',
     get_business_model_canvas
       (update_business_model_canvas NoFault fs section (Encodes patch)).1 = JDict doc' ∧
     doc' !! section = Some (merge_on_matching_shape (doc !! section) patch) ∧
     ∀ k, k ≠ section → doc' !! k = doc !! k) ∧
  (get_value_proposition_canvas fs = JDict doc →
   ∃ doc',
     get_value_proposition_canvas
       (update_value_proposition_canvas NoFault fs section (Encodes patch)).1 = JDict doc' ∧
     doc' !! section = Some (merge_on_matching_shape (doc !! section) patch) ∧
     ∀ k, k ≠ section → doc' !! k = doc !! k).
Proof.
  unfold get_business_model_canvas, get_value_proposition_canvas.
  split; intros Hdoc;
    exists (<[section := merge_on_matching_shape (doc !! section) patch]> doc).
  - unfold update_business_model_canvas. cbn [json_loads].
    rewrite Hdoc, apply_section_updates_dict.
    split; [|split].
    + rewrite load_json_file_lookup. cbn. by rewrite lookup_insert_eq.
    + apply lookup_insert_eq.
    + intros k Hk. by rewrite lookup_insert_ne.
  - unfold update_value_proposition_canvas. cbn [json_loads].
    rewrite Hdoc, apply_section_updates_dict.
    split; [|split].
    + rewrite load_json_file_lookup. cbn. by rewrite lookup_insert_eq.
    + apply lookup_insert_eq.
    + intros k Hk. by rewrite lookup_insert_ne.
Qed.

Lemma canvas_update_then_load_witness :
  (∃ doc',
     get_business_model_canvas
       (update_business_model_canvas NoFault fs_sample "Key Partners"
          (Encodes patch_sample)).1 = JDict doc' ∧
     doc' !! "Key Partners" =
       Some (merge_on_matching_shape (bmc_sample !! "Key Partners") patch_sample) ∧
     ∀ k, k ≠ "Key Partners" → doc' !! k = bmc_sample !! k) ∧
  (∃ doc',
     get_value_proposition_canvas
       (update_value_proposition_canvas NoFault fs_sample "Channels"
          (Encodes (JList []))).1 = JDict doc' ∧
     doc' !! "Channels" =
       Some (merge_on_matching_shape (bmc_sample !! "Channels") (JList [])) ∧
     ∀ k, k ≠ "Channels" → doc' !! k = bmc_sample !! k).
Proof.
  split.
  - apply (proj1 (canvas_update_then_load fs_sample "Key Partners" patch_sample bmc_sample)).
    reflexivity.
  - apply (proj2 (canvas_update_then_load fs_sample "Channels" (JList []) bmc_sample)).
    reflexivity.
Defined.

Example merge_sample :
  merge_on_matching_shape (bmc_sample !! "Key Partners") patch_sample =
    py_dict [("suppliers", JInt 2); ("banks", JInt 3); ("insurers", JInt 4)].
Proof. vm_compute. reflexivity. Qed.

Example merge_missing_key :
  merge_on_matching_shape (bmc_sample !! "Revenue Streams") patch_sample = patch_sample.
Proof. reflexivity. Qed.

Example update_sample_reply :
  (update_business_model_canvas NoFault fs_sample "Key Partners" (Encodes patch_sample)).2 =
    py_dict [("success", JBool true);
             ("message", JStr "Business Model Canvas section 'Key Partners' updated successfully");
             ("section", JStr "Key Partners");
             ("updates", patch_sample)].
Proof. reflexivity. Qed.

(** * Customer segments *)

Lemma eq_str_get_true (record : gmap string json) (field ident : string) :
  record !! field = Some (JStr ident) →
  eq_str (default JNull (record !! field)) ident = true.
Proof. intros ->. cbn. apply String.eqb_refl. Qed.

Lemma eq_str_get_false (record : gmap string json) (field ident : string) :
  record !! field ≠ Some (JStr ident) →
  eq_str (default JNull (record !! field)) ident = false.
Proof.
  intros Hne. destruct (record !! field) as [[]|]; cbn; try reflexivity.
  apply String.eqb_neq. congruence.
Qed.

Lemma first_match_at_head (field ident : string) (x : json) (l : list json)
    (record : gmap string json) :
  first_match_at field ident (x :: l) 0 record →
  x = JDict record ∧ record !! field = Some (JStr ident).
Proof. intros (Hx & Hf & _). cbn in Hx. split; congruence. Qed.

Lemma first_match_at_tail (field ident : string) (x : json) (l : list json) (i : nat)
    (record : gmap string json) :
  first_match_at field ident (x :: l) (S i) record →
  (∃ r, x = JDict r ∧ r !! field ≠ Some (JStr ident)) ∧
  first_match_at field ident l i record.
Proof.
  intros (Hx & Hf & Hbefore). split.
  - destruct (Hbefore 0) as (r & Hr & Hne); [lia|].
    exists r. cbn in Hr. split; congruence.
  - split; [exact Hx|]. split; [exact Hf|].
    intros j Hj. apply (Hbefore (S j)). lia.
Qed.

Lemma no_match_cons (field ident : string) (x : json) (l : list json) :
  no_match field ident (x :: l) →
  (∃ r, x = JDict r ∧ r !! field ≠ Some (JStr ident)) ∧ no_match field ident l.
Proof.
  intros Hno. split.
  - apply Hno. left.
  - intros y Hy. apply Hno. by right.
Qed.

Lemma update_segment_in_first_match (segments : list json) (segment_id : string)
    (updates_dict : json) (i : nat) (record : gmap string json) :
  first_match_at "id" segment_id segments i record →
  update_segment_in segments segment_id updates_dict =
    Returns (Some (<[i := updated_element record updates_dict]> segments)).
Proof.
  revert segments. induction i as [|i IH]; intros [|x rest] Hfirst;
    try (destruct Hfirst as (Hx & _); discriminate Hx).
  - apply first_match_at_head in Hfirst as [-> Hid]. cbn.
    rewrite (eq_str_get_true _ _ _ Hid).
    destruct updates_dict; reflexivity.
  - apply first_match_at_tail in Hfirst as [(r & -> & Hne) Hrest]. cbn.
    rewrite (eq_str_get_false _ _ _ Hne).
    rewrite (IH rest Hrest). reflexivity.
Qed.

Lemma update_segment_in_no_match (segments : list json) (segment_id : string)
    (updates_dict : json) :
  no_match "id" segment_id segments →
  update_segment_in segments segment_id updates_dict = Returns None.
Proof.
  induction segments as [|x rest IH]; intros Hno; [reflexivity|].
  apply no_match_cons in Hno as [(r & -> & Hne) Hrest]. cbn.
  rewrite (eq_str_get_false _ _ _ Hne).
  rewrite (IH Hrest). reflexivity.
Qed.

Lemma update_customer_segments_first_match (fs : filesystem) (data : gmap string json)
    (segments : list json) (segment_id : string) (updates_dict : json) (i : nat)
    (record : gmap string json) :
  get_customer_segments fs = JDict data →
  data !! "customer_segments" = Some (JList segments) →
  first_match_at "id" segment_id segments i record →
  (update_customer_segments NoFault fs segment_id (Encodes updates_dict)).2 =
    segment_success segment_id updates_dict ∧
  get_customer_segments
    (update_customer_segments NoFault fs segment_id (Encodes updates_dict)).1 =
    JDict (<["customer_segments" :=
               JList (<[i := updated_element record updates_dict]> segments)]> data).
Proof.
  unfold get_customer_segments. intros Hdata Hsegs Hfirst.
  unfold update_customer_segments. cbn [json_loads].
  rewrite Hdata. cbn. rewrite Hsegs. cbn.
  rewrite (update_segment_in_first_match _ _ _ _ _ Hfirst).
  split; [reflexivity|].
  rewrite load_json_file_lookup. cbn. by rewrite lookup_insert_eq.
Qed.

(** C3, as the code has it.  Let the segments document be a mapping whose
    ["customer_segments"] is a list.  If the first record with the given id
    is at position [i] (the elements before it being records), an update
    with a mapping patch merges the patch into that record (patch keys win,
    the record's other fields stay), leaves every other element and every
    other top-level key as they were, and replies with the success payload,
    which carries the segment id and the patch.  If the list holds records
    none of which has the id, the reply is the not-found error and the
    store is unchanged. *)
Theorem update_customer_segments_by_identity (fs : filesystem)
    (data : gmap string json) (segments : list json) (segment_id : string)
    (patch : gmap string json) :
  get_customer_segments fs = JDict data →
  data !! "customer_segments" = Some (JList segments) →
  (∀ i record,
     first_match_at "id" segment_id segments i record →
     (update_customer_segments NoFault fs segment_id (Encodes (JDict patch))).2 =
       segment_success segment_id (JDict patch) ∧
     get_customer_segments
       (update_customer_segments NoFault fs segment_id (Encodes (JDict patch))).1 =
       JDict (<["customer_segments" :=
                  JList (<[i := JDict (merge_keys record patch)]> segments)]> data)) ∧
  (no_match "id" segment_id segments →
   ∀ io,
     update_customer_segments io fs segment_id (Encodes (JDict patch)) =
       (fs, error_payload ("Customer segment '" +:+ segment_id +:+ "' not found"))).
Proof.
  intros Hdata Hsegs. split.
  - intros i record Hfirst.
    rewrite <- dict_update_merge_keys.
    apply (update_customer_segments_first_match fs data segments segment_id
             (JDict patch) i record Hdata Hsegs Hfirst).
  - intros Hno io. unfold get_customer_segments in Hdata.
    unfold update_customer_segments. cbn [json_loads].
    rewrite Hdata. cbn. rewrite Hsegs. cbn.
    rewrite (update_segment_in_no_match _ _ _ Hno). reflexivity.
Qed.

(** C10.  If the first record with the given id is at position [i] and the
    patch is well-formed JSON but not a mapping, the update puts the patch
    itself at position [i], in place of the whole record, and still replies
    with the success payload. *)
Theorem update_customer_segments_replaces_record (fs : filesystem)
    (data : gmap string json) (segments : list json) (segment_id : string)
    (patch : json) (i : nat) (record : gmap string json) :
  get_customer_segments fs = JDict data →
  data !! "customer_segments" = Some (JList segments) →
  first_match_at "id" segment_id segments i record →
  isinstance_dict patch = false →
  ∃ segments',
    (update_customer_segments NoFault fs segment_id (Encodes patch)).2 =
      segment_success segment_id patch ∧
    get_customer_segments
      (update_customer_segments NoFault fs segment_id (Encodes patch)).1 =
      JDict (<["customer_segments" := JList segments']> data) ∧
    segments' !! i = Some patch ∧
    ∀ j, j ≠ i → segments' !! j = segments !! j.
Proof.
  intros Hdata Hsegs Hfirst Hshape.
  exists (<[i := patch]> segments).
  destruct (update_customer_segments_first_match fs data segments segment_id
              patch i record Hdata Hsegs Hfirst) as [Hreply Hload].
  assert (updated_element record patch = patch) as Hel
    by (destruct patch; try reflexivity; discriminate Hshape).
  rewrite Hel in Hload.
  split; [exact Hreply|]. split; [exact Hload|]. split.
  - apply list_lookup_insert_eq. destruct Hfirst as (Hi & _).
    by apply lookup_lt_Some in Hi.
  - intros j Hj. by apply list_lookup_insert_ne.
Qed.

Lemma seg_03_first_match : first_match_at "id" "seg_03" segments_sample 1 seg_03.
Proof.
  split; [reflexivity|]. split; [reflexivity|].
  intros j Hj. assert (j = 0) as -> by lia.
  exists seg_01. split; [reflexivity|]. vm_compute. discriminate.
Qed.

Lemma seg_99_no_match : no_match "id" "seg_99" segments_sample.
Proof.
  intros x Hx. unfold segments_sample in Hx.
  apply elem_of_cons in Hx as [->|Hx]; [|apply elem_of_cons in Hx as [->|Hx]].
  - exists seg_01. split; [reflexivity|]. vm_compute. discriminate.
  - exists seg_03. split; [reflexivity|]. vm_compute. discriminate.
  - by apply elem_of_nil in Hx.
Qed.

Lemma update_customer_segments_by_identity_witness :
  ((update_customer_segments NoFault fs_segments "seg_03"
      (Encodes (JDict pain_points_patch))).2 =
     segment_success "seg_03" (JDict pain_points_patch) ∧
   get_customer_segments
     (update_customer_segments NoFault fs_segments "seg_03"
        (Encodes (JDict pain_points_patch))).1 =
     JDict (<["customer_segments" :=
                JList (<[1 := JDict (merge_keys seg_03 pain_points_patch)]>
                         segments_sample)]> segments_doc)) ∧
  update_customer_segments NoFault fs_segments "seg_99"
    (Encodes (JDict pain_points_patch)) =
    (fs_segments, error_payload "Customer segment 'seg_99' not found").
Proof.
  split.
  - apply (proj1 (update_customer_segments_by_identity fs_segments segments_doc
                    segments_sample "seg_03" pain_points_patch eq_refl eq_refl)).
    exact seg_03_first_match.
  - apply (proj2 (update_customer_segments_by_identity fs_segments segments_doc
                    segments_sample "seg_99" pain_points_patch eq_refl eq_refl)).
    exact seg_99_no_match.
Defined.

Example seg_03_merge : merge_keys seg_03 pain_points_patch = seg_03_updated.
Proof. vm_compute. reflexivity. Qed.

(** C3 as the specification words it fails: the reply to a successful
    update of [seg_03] is the success payload, whose ["updates"] field is
    the patch; it is not the updated record, and neither is the patch. *)
Lemma update_customer_segments_reply_is_not_record :
  first_match_at "id" "seg_03" segments_sample 1 seg_03 ∧
  (update_customer_segments NoFault fs_segments "seg_03"
     (Encodes (JDict pain_points_patch))).2 =
    py_dict [("success", JBool true);
             ("message", JStr "Customer segment 'seg_03' updated successfully");
             ("segment_id", JStr "seg_03");
             ("updates", JDict pain_points_patch)] ∧
  (update_customer_segments NoFault fs_segments "seg_03"
     (Encodes (JDict pain_points_patch))).2 ≠ JDict seg_03_updated ∧
  JDict pain_points_patch ≠ JDict seg_03_updated.
Proof.
  split; [exact seg_03_first_match|]. split; [reflexivity|]. split.
  - intros H. apply (f_equal (λ v, match v with JDict m => m !! "archetype" | _ => None end)) in H.
    vm_compute in H. discriminate H.
  - intros H. apply (f_equal (λ v, match v with JDict m => m !! "archetype" | _ => None end)) in H.
    vm_compute in H. discriminate H.
Qed.

Lemma update_customer_segments_replaces_record_witness :
  ∃ segments',
    (update_customer_segments NoFault fs_segments "seg_03"
       (Encodes (JList [JStr "gone"]))).2 =
      segment_success "seg_03" (JList [JStr "gone"]) ∧
    get_customer_segments
      (update_customer_segments NoFault fs_segments "seg_03"
         (Encodes (JList [JStr "gone"]))).1 =
      JDict (<["customer_segments" := JList segments']> segments_doc) ∧
    segments' !! 1 = Some (JList [JStr "gone"]) ∧
    ∀ j, j ≠ 1 → segments' !! j = segments_sample !! j.
Proof.
  apply (update_customer_segments_replaces_record fs_segments segments_doc
           segments_sample "seg_03" (JList [JStr "gone"]) 1 seg_03
           eq_refl eq_refl seg_03_first_match eq_refl).
Defined.

(** * Sprint items *)

Lemma eq_str_get_inv (record : gmap string json) (field ident : string) :
  eq_str (default JNull (record !! field)) ident = true →
  record !! field = Some (JStr ident).
Proof.
  destruct (record !! field) as [[]|]; cbn; try discriminate.
  intros H. apply String.eqb_eq in H. by subst.
Qed.

Lemma eq_str_get_inv_false (record : gmap string json) (field ident : string) :
  eq_str (default JNull (record !! field)) ident = false →
  record !! field ≠ Some (JStr ident).
Proof.
  intros H Heq. rewrite (eq_str_get_true _ _ _ Heq) in H. discriminate.
Qed.

Lemma first_match_at_here (field ident : string) (l : list json)
    (record : gmap string json) :
  record !! field = Some (JStr ident) →
  first_match_at field ident (JDict record :: l) 0 record.
Proof. intros Hf. split; [reflexivity|]. split; [exact Hf|]. intros j Hj. lia. Qed.

Lemma first_match_at_later (field ident : string) (l : list json) (i : nat)
    (r record : gmap string json) :
  r !! field ≠ Some (JStr ident) →
  first_match_at field ident l i record →
  first_match_at field ident (JDict r :: l) (S i) record.
Proof.
  intros Hne (Hx & Hf & Hbefore). split; [exact Hx|]. split; [exact Hf|].
  intros [|j] Hj.
  - exists r. split; [reflexivity|exact Hne].
  - apply Hbefore. lia.
Qed.

Lemma no_match_nil (field ident : string) : no_match field ident [].
Proof. intros x Hx. by apply elem_of_nil in Hx. Qed.

Lemma no_match_add (field ident : string) (r : gmap string json) (l : list json) :
  r !! field ≠ Some (JStr ident) →
  no_match field ident l →
  no_match field ident (JDict r :: l).
Proof.
  intros Hne Hno x Hx. apply elem_of_cons in Hx as [->|Hx].
  - exists r. split; [reflexivity|exact Hne].
  - by apply Hno.
Qed.

Lemma update_item_in_first (items : list json) (item_id status notes : string)
    (j : nat) (item : gmap string json) :
  first_match_at "item_id" item_id items j item →
  update_item_in items item_id status notes =
    Returns (Some (<[j := JDict (item_after item status notes)]> items)).
Proof.
  revert items. induction j as [|j IH]; intros [|x rest] Hfirst;
    try (destruct Hfirst as (Hx & _); discriminate Hx).
  - apply first_match_at_head in Hfirst as [-> Hid]. cbn.
    rewrite (eq_str_get_true _ _ _ Hid). unfold item_after.
    destruct (bool_decide (notes ≠ "")); reflexivity.
  - apply first_match_at_tail in Hfirst as [(r & -> & Hne) Hrest]. cbn.
    rewrite (eq_str_get_false _ _ _ Hne).
    rewrite (IH rest Hrest). reflexivity.
Qed.

Lemma update_item_in_no_match (items : list json) (item_id status notes : string) :
  no_match "item_id" item_id items →
  update_item_in items item_id status notes = Returns None.
Proof.
  induction items as [|x rest IH]; intros Hno; [reflexivity|].
  apply no_match_cons in Hno as [(r & -> & Hne) Hrest]. cbn.
  rewrite (eq_str_get_false _ _ _ Hne).
  rewrite (IH Hrest). reflexivity.
Qed.

(** What a run of the inner loop without an exception tells about the
    items. *)
Lemma update_item_in_inv (items : list json) (item_id status notes : string)
    (result : option (list json)) :
  update_item_in items item_id status notes = Returns result →
  match result with
  | Some items' =>
      ∃ j item,
        first_match_at "item_id" item_id items j item ∧
        items' = <[j := JDict (item_after item status notes)]> items
  | None => no_match "item_id" item_id items
  end.
Proof.
  revert result. induction items as [|x rest IH]; intros result Hrun.
  - injection Hrun as <-. apply no_match_nil.
  - destruct x as [| | | | | |r]; try discriminate Hrun.
    cbn in Hrun.
    destruct (eq_str (default JNull (r !! "item_id")) item_id) eqn:Hid.
    + apply eq_str_get_inv in Hid.
      assert (result = Some (JDict (item_after r status notes) :: rest)) as ->.
      { unfold item_after. cbn in Hrun.
        destruct (bool_decide (notes ≠ "")); cbn in Hrun; congruence. }
      exists 0, r. split; [by apply first_match_at_here|reflexivity].
    + apply eq_str_get_inv_false in Hid.
      destruct (update_item_in rest item_id status notes) as [r'|e] eqn:Hrest;
        cbn in Hrun; [|discriminate Hrun].
      injection Hrun as <-.
      specialize (IH r' eq_refl).
      destruct r' as [items'|]; cbn.
      * destruct IH as (j & item & Hfirst & ->).
        exists (S j), item. split; [by apply first_match_at_later|reflexivity].
      * by apply no_match_add.
Qed.

Lemma find_item_in_first (items : list json) (item_id : string) (j : nat)
    (item : gmap string json) :
  first_match_at "item_id" item_id items j item →
  find_item_in items item_id = Returns (Some (JDict item)).
Proof.
  revert items. induction j as [|j IH]; intros [|x rest] Hfirst;
    try (destruct Hfirst as (Hx & _); discriminate Hx).
  - apply first_match_at_head in Hfirst as [-> Hid]. cbn.
    by rewrite (eq_str_get_true _ _ _ Hid).
  - apply first_match_at_tail in Hfirst as [(r & -> & Hne) Hrest]. cbn.
    rewrite (eq_str_get_false _ _ _ Hne). by apply IH.
Qed.

Lemma find_item_in_no_match (items : list json) (item_id : string) :
  no_match "item_id" item_id items →
  find_item_in items item_id = Returns None.
Proof.
  induction items as [|x rest IH]; intros Hno; [reflexivity|].
  apply no_match_cons in Hno as [(r & -> & Hne) Hrest]. cbn.
  rewrite (eq_str_get_false _ _ _ Hne). by apply IH.
Qed.

Lemma first_item_at_head (item_id : string) (x : json) (l : list json) (j : nat)
    (sprint : gmap string json) (items : list json) (item : gmap string json) :
  first_item_at item_id (x :: l) 0 j sprint items item →
  x = JDict sprint ∧ sprint !! "items" = Some (JList items) ∧
  first_match_at "item_id" item_id items j item.
Proof.
  intros (Hx & Hitems & Hfirst & _). cbn in Hx.
  split; [congruence|]. split; assumption.
Qed.

Lemma first_item_at_tail (item_id : string) (x : json) (l : list json) (i j : nat)
    (sprint : gmap string json) (items : list json) (item : gmap string json) :
  first_item_at item_id (x :: l) (S i) j sprint items item →
  (∃ sprint' elements,
     x = JDict sprint' ∧
     py_iter (default (JList []) (sprint' !! "items")) = Returns elements ∧
     no_match "item_id" item_id elements) ∧
  first_item_at item_id l i j sprint items item.
Proof.
  intros (Hx & Hitems & Hfirst & Hbefore). split.
  - destruct (Hbefore 0) as (sprint' & elements & Hs & Hiter & Hno); [lia|].
    exists sprint', elements. cbn in Hs.
    split; [congruence|]. split; assumption.
  - split; [exact Hx|]. split; [exact Hitems|]. split; [exact Hfirst|].
    intros i' Hi'. apply (Hbefore (S i')). lia.
Qed.

Lemma first_item_at_here (item_id : string) (l : list json) (j : nat)
    (sprint : gmap string json) (items : list json) (item : gmap string json) :
  sprint !! "items" = Some (JList items) →
  first_match_at "item_id" item_id items j item →
  first_item_at item_id (JDict sprint :: l) 0 j sprint items item.
Proof.
  intros Hitems Hfirst. split; [reflexivity|]. split; [exact Hitems|].
  split; [exact Hfirst|]. intros i' Hi'. lia.
Qed.

Lemma first_item_at_later (item_id : string) (l : list json) (i j : nat)
    (sprint' : gmap string json) (elements : list json)
    (sprint : gmap string json) (items : list json) (item : gmap string json) :
  py_iter (default (JList []) (sprint' !! "items")) = Returns elements →
  no_match "item_id" item_id elements →
  first_item_at item_id l i j sprint items item →
  first_item_at item_id (JDict sprint' :: l) (S i) j sprint items item.
Proof.
  intros Hiter Hno (Hx & Hitems & Hfirst & Hbefore).
  split; [exact Hx|]. split; [exact Hitems|]. split; [exact Hfirst|].
  intros [|i'] Hi'.
  - exists sprint', elements. split; [reflexivity|]. split; assumption.
  - apply Hbefore. lia.
Qed.

Lemma update_item_in_sprints_first (sprints : list json) (item_id status notes : string)
    (i j : nat) (sprint : gmap string json) (items : list json)
    (item : gmap string json) :
  first_item_at item_id sprints i j sprint items item →
  update_item_in_sprints sprints item_id status notes =
    Returns (Some (<[i := JDict (<["items" :=
                       JList (<[j := JDict (item_after item status notes)]> items)]>
                       sprint)]> sprints)).
Proof.
  revert sprints. induction i as [|i IH]; intros [|x rest] Hfirst;
    try (destruct Hfirst as (Hx & _); discriminate Hx).
  - apply first_item_at_head in Hfirst as (-> & Hitems & Hfirst). cbn.
    rewrite Hitems. cbn.
    rewrite (update_item_in_first _ _ status notes _ _ Hfirst). reflexivity.
  - apply first_item_at_tail in Hfirst
      as [(sprint' & elements & -> & Hiter & Hno) Hrest].
    cbn. rewrite Hiter. cbn.
    rewrite (update_item_in_no_match _ _ status notes Hno). cbn.
    rewrite (IH rest Hrest). reflexivity.
Qed.

Lemma find_item_in_sprints_first (sprints : list json) (item_id : string)
    (i j : nat) (sprint : gmap string json) (items : list json)
    (item : gmap string json) :
  first_item_at item_id sprints i j sprint items item →
  find_item_in_sprints sprints item_id = Returns (Some (JDict item)).
Proof.
  revert sprints. induction i as [|i IH]; intros [|x rest] Hfirst;
    try (destruct Hfirst as (Hx & _); discriminate Hx).
  - apply first_item_at_head in Hfirst as (-> & Hitems & Hfirst). cbn.
    rewrite Hitems. cbn.
    by rewrite (find_item_in_first _ _ _ _ Hfirst).
  - apply first_item_at_tail in Hfirst
      as [(sprint' & elements & -> & Hiter & Hno) Hrest].
    cbn. rewrite Hiter. cbn.
    rewrite (find_item_in_no_match _ _ Hno). cbn. by apply IH.
Qed.

Lemma chars_lookup (s : string) (j : nat) (x : json) :
  chars s !! j = Some x → ∃ c, x = JStr c.
Proof.
  revert j. induction s as [|c s IH]; intros [|j] H; cbn in H; try discriminate.
  - injection H as <-. eauto.
  - eauto.
Qed.

(** Only a stored list can hold a record: iterating a mapping or a string
    yields strings. *)
Lemma py_iter_record (container : gmap string json) (key : string)
    (elements : list json) (j : nat) (record : gmap string json) :
  py_iter (default (JList []) (container !! key)) = Returns elements →
  elements !! j = Some (JDict record) →
  container !! key = Some (JList elements).
Proof.
  intros Hiter Hj.
  destruct (container !! key) as [v|] eqn:Hv; cbn in Hiter.
  - destruct v; try discriminate Hiter; injection Hiter as <-.
    + apply chars_lookup in Hj as [c Hc]. discriminate Hc.
    + reflexivity.
    + rewrite list_lookup_fmap in Hj.
      destruct ((map_to_list m).*1 !! j); discriminate Hj.
  - injection Hiter as <-. discriminate Hj.
Qed.

(** What a run of the outer loop that updated an item tells about the
    sprints. *)
Lemma update_item_in_sprints_inv (sprints : list json) (item_id status notes : string)
    (sprints' : list json) :
  update_item_in_sprints sprints item_id status notes = Returns (Some sprints') →
  ∃ i j sprint items item,
    first_item_at item_id sprints i j sprint items item ∧
    sprints' = <[i := JDict (<["items" :=
                   JList (<[j := JDict (item_after item status notes)]> items)]>
                   sprint)]> sprints.
Proof.
  revert sprints'. induction sprints as [|x rest IH]; intros sprints' Hrun;
    [discriminate Hrun|].
  destruct x as [| | | | | |sp]; try discriminate Hrun.
  cbn in Hrun.
  destruct (py_iter (default (JList []) (sp !! "items"))) as [elements|e] eqn:Hiter;
    cbn in Hrun; [|discriminate Hrun].
  destruct (update_item_in elements item_id status notes) as [r|e] eqn:Hinner;
    cbn in Hrun; [|discriminate Hrun].
  pose proof (update_item_in_inv _ _ _ _ _ Hinner) as Hinv.
  destruct r as [items'|].
  - destruct Hinv as (j & item & Hfirst & ->).
    injection Hrun as <-.
    assert (sp !! "items" = Some (JList elements)) as Hitems.
    { destruct Hfirst as (Hj & _). by eapply py_iter_record. }
    exists 0, j, sp, elements, item. split; [|reflexivity].
    by apply first_item_at_here.
  - destruct (update_item_in_sprints rest item_id status notes) as [r'|e] eqn:Hrest;
      cbn in Hrun; [|discriminate Hrun].
    destruct r' as [rest'|]; [|discriminate Hrun].
    injection Hrun as <-.
    destruct (IH rest' eq_refl) as (i & j & sprint & items & item & Hfirst & ->).
    exists (S i), j, sprint, items, item. split; [|reflexivity].
    by eapply first_item_at_later.
Qed.

Lemma error_payload_not_success (msg : string) : ¬ is_success (error_payload msg).
Proof.
  intros (m & Hm & Hs). unfold error_payload, py_dict in Hm.
  injection Hm as <-. cbn in Hs.
  rewrite lookup_insert_ne in Hs by done. by rewrite lookup_empty in Hs.
Qed.

Lemma item_after_status (item : gmap string json) (status notes : string) :
  item_after item status notes !! "status" = Some (JStr status).
Proof.
  unfold item_after. case_bool_decide.
  - rewrite lookup_insert_ne by done. apply lookup_insert_eq.
  - apply lookup_insert_eq.
Qed.

Lemma item_after_notes (item : gmap string json) (status notes : string) :
  item_after item status notes !! "notes" =
    if bool_decide (notes ≠ "") then Some (JStr notes) else item !! "notes".
Proof.
  unfold item_after. case_bool_decide.
  - apply lookup_insert_eq.
  - by rewrite lookup_insert_ne.
Qed.

Lemma item_after_other (item : gmap string json) (status notes field : string) :
  field ≠ "status" → field ≠ "notes" →
  item_after item status notes !! field = item !! field.
Proof.
  intros Hs Hn. unfold item_after. case_bool_decide.
  - by rewrite !lookup_insert_ne.
  - by rewrite lookup_insert_ne.
Qed.

Lemma first_match_at_replace (field ident : string) (l : list json) (i : nat)
    (record record' : gmap string json) :
  first_match_at field ident l i record →
  record' !! field = Some (JStr ident) →
  first_match_at field ident (<[i := JDict record']> l) i record'.
Proof.
  intros (Hx & Hf & Hbefore) Hf'. split.
  - apply list_lookup_insert_eq. by apply lookup_lt_Some in Hx.
  - split; [exact Hf'|]. intros j Hj.
    rewrite list_lookup_insert_ne by lia. by apply Hbefore.
Qed.

Lemma first_item_at_replace (item_id : string) (sprints : list json) (i j : nat)
    (sprint : gmap string json) (items : list json) (item item' : gmap string json) :
  first_item_at item_id sprints i j sprint items item →
  item' !! "item_id" = Some (JStr item_id) →
  first_item_at item_id
    (<[i := JDict (<["items" := JList (<[j := JDict item']> items)]> sprint)]> sprints)
    i j (<["items" := JList (<[j := JDict item']> items)]> sprint)
    (<[j := JDict item']> items) item'.
Proof.
  intros (Hx & Hitems & Hfirst & Hbefore) Hid. split.
  - apply list_lookup_insert_eq. by apply lookup_lt_Some in Hx.
  - split; [apply lookup_insert_eq|]. split.
    + by eapply first_match_at_replace.
    + intros i' Hi'. rewrite list_lookup_insert_ne by lia. by apply Hbefore.
Qed.

Lemma save_sprints_data_then_load (fs : filesystem) (data : json) :
  _load_sprints_data (_save_sprints_data NoFault fs data).1 = data.
Proof. rewrite load_sprints_data_lookup. cbn. by rewrite lookup_insert_eq. Qed.

Lemma update_sprint_item_status_located (fs : filesystem) (data : gmap string json)
    (sprints : list json) (item_id status notes : string) (i j : nat)
    (sprint : gmap string json) (items : list json) (item : gmap string json) :
  get_sprint_items fs = JDict data →
  data !! "sprints" = Some (JList sprints) →
  status ∈ valid_statuses →
  first_item_at item_id sprints i j sprint items item →
  update_sprint_item_status NoFault fs item_id status notes =
    ((_save_sprints_data NoFault fs
        (JDict (<["sprints" :=
                  JList (<[i := JDict (<["items" :=
                            JList (<[j := JDict (item_after item status notes)]> items)]>
                            sprint)]> sprints)]> data))).1,
     sprint_success item_id status notes).
Proof.
  unfold get_sprint_items. intros Hdata Hsprints Hvalid Hfirst.
  unfold update_sprint_item_status.
  rewrite bool_decide_eq_false_2 by (intros Hno; by apply Hno).
  rewrite Hdata. cbn. rewrite Hsprints. cbn.
  rewrite (update_item_in_sprints_first _ _ status notes _ _ _ _ _ Hfirst).
  reflexivity.
Qed.

(** C2, as the code has it.  The fixed enumeration is [pending],
    [in_progress], [completed].  Any other status, [design_completed]
    included, is answered with the invalid-status error payload and leaves
    the store as it was, whatever the item id and the notes.  A status of the
    enumeration applied to an existing item id succeeds (the save
    succeeding), and [get_sprint_item] then returns that item with the new
    status. *)
Theorem update_sprint_item_status_validation (fs : filesystem)
    (item_id status notes : string) :
  (status ∉ ["pending"; "in_progress"; "completed"] →
   ∀ io,
     update_sprint_item_status io fs item_id status notes =
       (fs, error_payload ("Invalid status '" +:+ status +:+
              "'. Must be one of: ['pending', 'in_progress', 'completed']"))) ∧
  (∀ io,
     update_sprint_item_status io fs item_id "design_completed" notes =
       (fs, error_payload
              "Invalid status 'design_completed'. Must be one of: ['pending', 'in_progress', 'completed']")) ∧
  (status ∈ ["pending"; "in_progress"; "completed"] →
   ∀ data sprints i j sprint items item,
     get_sprint_items fs = JDict data →
     data !! "sprints" = Some (JList sprints) →
     first_item_at item_id sprints i j sprint items item →
     (update_sprint_item_status NoFault fs item_id status notes).2 =
       sprint_success item_id status notes ∧
     ∃ item',
       get_sprint_item (update_sprint_item_status NoFault fs item_id status notes).1
         item_id = JDict item' ∧
       item' !! "status" = Some (JStr status)).
Proof.
  split; [|split].
  - intros Hinvalid io. unfold update_sprint_item_status.
    rewrite bool_decide_eq_true_2 by exact Hinvalid. reflexivity.
  - intros io. reflexivity.
  - intros Hvalid data sprints i j sprint items item Hdata Hsprints Hfirst.
    rewrite (update_sprint_item_status_located fs data sprints item_id status notes
               i j sprint items item Hdata Hsprints Hvalid Hfirst).
    split; [reflexivity|].
    exists (item_after item status notes). split; [|apply item_after_status].
    assert (item_after item status notes !! "item_id" = Some (JStr item_id)) as Hid.
    { rewrite item_after_other by done.
      by destruct Hfirst as (_ & _ & (_ & Hid & _) & _). }
    pose proof (first_item_at_replace _ _ _ _ _ _ _ _ Hfirst Hid) as Hfirst'.
    unfold get_sprint_item. cbn [fst].
    rewrite save_sprints_data_then_load.
    cbn. rewrite lookup_insert_eq. cbn.
    by rewrite (find_item_in_sprints_first _ _ _ _ _ _ _ Hfirst').
Qed.

(** A success reply tells that the save went through, that the status is
    one of the enumeration, and where the item was found. *)
Lemma update_sprint_item_status_success_inv (io : io_fault) (fs : filesystem)
    (item_id status notes : string) :
  is_success (update_sprint_item_status io fs item_id status notes).2 →
  io = NoFault ∧ status ∈ valid_statuses ∧
  ∃ data sprints i j sprint items item,
    get_sprint_items fs = JDict data ∧
    data !! "sprints" = Some (JList sprints) ∧
    first_item_at item_id sprints i j sprint items item.
Proof.
  unfold get_sprint_items, update_sprint_item_status.
  case_bool_decide as Hvalid.
  { intros Hs. by apply error_payload_not_success in Hs. }
  destruct (_load_sprints_data fs) as [| | | | | |data] eqn:Hdata;
    try (intros Hs; by apply error_payload_not_success in Hs).
  cbn [py_get mbind outcome_bind].
  destruct (py_iter (default (JList []) (data !! "sprints"))) as [elements|e] eqn:Hiter;
    cbn [mbind outcome_bind];
    [|intros Hs; by apply error_payload_not_success in Hs].
  destruct (update_item_in_sprints elements item_id status notes) as [[sprints'|]|e]
    eqn:Hrun; try (intros Hs; by apply error_payload_not_success in Hs).
  apply update_item_in_sprints_inv in Hrun
    as (i & j & sprint & items & item & Hfirst & ->).
  assert (data !! "sprints" = Some (JList elements)) as Hsprints.
  { destruct Hfirst as (Hi & _). by eapply py_iter_record. }
  destruct io; cbn [_save_sprints_data fst snd];
    try (intros Hs; by apply error_payload_not_success in Hs).
  intros _. split; [reflexivity|]. split; [exact Hvalid|].
  by exists data, elements, i, j, sprint, items, item.
Qed.

(** C9.  A call that replies with success changed exactly one thing: the
    first item with the given id, item [j] of sprint [i].  In that item
    [status] is the new status, [notes] is the notes argument when that is
    not empty and keeps its previous value (or absence) otherwise, and
    every other field is as before.  The document after the call is the
    document before it with that one item replaced: every other item of
    the sprint, every other field of the sprint, every other sprint and
    every other top-level key are untouched. *)
Theorem update_sprint_item_status_frame (io : io_fault) (fs : filesystem)
    (item_id status notes : string) :
  is_success (update_sprint_item_status io fs item_id status notes).2 →
  ∃ data sprints i j sprint items item item',
    get_sprint_items fs = JDict data ∧
    data !! "sprints" = Some (JList sprints) ∧
    first_item_at item_id sprints i j sprint items item ∧
    get_sprint_items (update_sprint_item_status io fs item_id status notes).1 =
      JDict (<["sprints" :=
                JList (<[i := JDict (<["items" := JList (<[j := JDict item']> items)]>
                                       sprint)]> sprints)]> data) ∧
    item' !! "status" = Some (JStr status) ∧
    (notes ≠ "" → item' !! "notes" = Some (JStr notes)) ∧
    (notes = "" → item' !! "notes" = item !! "notes") ∧
    (∀ field, field ≠ "status" → field ≠ "notes" → item' !! field = item !! field).
Proof.
  intros Hsuccess.
  destruct (update_sprint_item_status_success_inv _ _ _ _ _ Hsuccess)
    as (-> & Hvalid & data & sprints & i & j & sprint & items & item &
        Hdata & Hsprints & Hfirst).
  rewrite (update_sprint_item_status_located fs data sprints item_id status notes
             i j sprint items item Hdata Hsprints Hvalid Hfirst).
  exists data, sprints, i, j, sprint, items, item, (item_after item status notes).
  split; [exact Hdata|]. split; [exact Hsprints|]. split; [exact Hfirst|].
  split; [apply save_sprints_data_then_load|].
  split; [apply item_after_status|].
  split; [|split].
  - intros Hn. rewrite item_after_notes. by rewrite bool_decide_eq_true_2.
  - intros Hn. rewrite item_after_notes. rewrite bool_decide_eq_false_2; [done|].
    intros Hne. by apply Hne.
  - intros field Hs Hn. by apply item_after_other.
Qed.

Lemma s1_item_1_first :
  first_item_at "s1_item_1" [JDict sprint_1; JDict sprint_2] 0 0 sprint_1
    [JDict s1_item_1; JDict s1_item_2] s1_item_1.
Proof.
  split; [reflexivity|]. split; [reflexivity|]. split.
  - split; [reflexivity|]. split; [reflexivity|]. intros j Hj. lia.
  - intros i Hi. lia.
Qed.

Lemma s1_item_2_first :
  first_item_at "s1_item_2" [JDict sprint_1; JDict sprint_2] 0 1 sprint_1
    [JDict s1_item_1; JDict s1_item_2] s1_item_2.
Proof.
  split; [reflexivity|]. split; [reflexivity|]. split.
  - split; [reflexivity|]. split; [reflexivity|].
    intros j Hj. assert (j = 0) as -> by lia.
    exists s1_item_1. split; [reflexivity|]. vm_compute. discriminate.
  - intros i Hi. lia.
Qed.

Lemma update_sprint_item_status_validation_witness :
  update_sprint_item_status ReplaceFails fs_sprints "s1_item_2" "archived" "" =
    (fs_sprints,
     error_payload
       "Invalid status 'archived'. Must be one of: ['pending', 'in_progress', 'completed']") ∧
  (update_sprint_item_status NoFault fs_sprints "s1_item_2" "completed" "shipped").2 =
    sprint_success "s1_item_2" "completed" "shipped" ∧
  ∃ item',
    get_sprint_item
      (update_sprint_item_status NoFault fs_sprints "s1_item_2" "completed" "shipped").1
      "s1_item_2" = JDict item' ∧
    item' !! "status" = Some (JStr "completed").
Proof.
  split.
  - apply (proj1 (update_sprint_item_status_validation
                    fs_sprints "s1_item_2" "archived" "")).
    vm_compute. intros H. repeat (apply elem_of_cons in H as [H|H]; [discriminate H|]).
    by apply elem_of_nil in H.
  - apply (proj2 (proj2 (update_sprint_item_status_validation
                           fs_sprints "s1_item_2" "completed" "shipped"))
             ltac:(do 2 right; left) sprints_doc _ 0 1 sprint_1 _ s1_item_2
             eq_refl eq_refl s1_item_2_first).
Defined.

(** C2 as the specification words it fails: [design_completed], applied
    to an item that exists, is rejected, and the item keeps its status. *)
Lemma design_completed_is_rejected :
  first_item_at "s1_item_1" [JDict sprint_1; JDict sprint_2] 0 0 sprint_1
    [JDict s1_item_1; JDict s1_item_2] s1_item_1 ∧
  update_sprint_item_status NoFault fs_sprints "s1_item_1" "design_completed" "" =
    (fs_sprints,
     error_payload
       "Invalid status 'design_completed'. Must be one of: ['pending', 'in_progress', 'completed']") ∧
  ¬ is_success
      (update_sprint_item_status NoFault fs_sprints "s1_item_1" "design_completed" "").2 ∧
  get_sprint_item
    (update_sprint_item_status NoFault fs_sprints "s1_item_1" "design_completed" "").1
    "s1_item_1" = JDict s1_item_1 ∧
  s1_item_1 !! "status" = Some (JStr "pending").
Proof.
  split; [exact s1_item_1_first|]. split; [reflexivity|]. split.
  - apply error_payload_not_success.
  - split; reflexivity.
Qed.

Lemma update_sprint_item_status_frame_witness :
  ∃ data sprints i j sprint items item item',
    get_sprint_items fs_sprints = JDict data ∧
    data !! "sprints" = Some (JList sprints) ∧
    first_item_at "s2_item_1" sprints i j sprint items item ∧
    get_sprint_items
      (update_sprint_item_status NoFault fs_sprints "s2_item_1" "completed" "").1 =
      JDict (<["sprints" :=
                JList (<[i := JDict (<["items" := JList (<[j := JDict item']> items)]>
                                       sprint)]> sprints)]> data) ∧
    item' !! "status" = Some (JStr "completed") ∧
    ("" ≠ "" → item' !! "notes" = Some (JStr "")) ∧
    ("" = "" → item' !! "notes" = item !! "notes") ∧
    (∀ field, field ≠ "status" → field ≠ "notes" → item' !! field = item !! field).
Proof.
  apply (update_sprint_item_status_frame NoFault fs_sprints "s2_item_1" "completed" "").
  eexists. split; reflexivity.
Defined.

Example update_sprint_item_status_sample :
  get_sprint_item
    (update_sprint_item_status NoFault fs_sprints "s2_item_1" "completed" "").1
    "s2_item_1" =
    JDict (list_to_map [("item_id", JStr "s2_item_1"); ("task", JStr "Price test");
                         ("status", JStr "completed"); ("notes", JStr "keep")]).
Proof. vm_compute. reflexivity. Qed.

(** * Sessions *)

Section session_facts.
Context {service : Type}.
Variable create_session :
  service → string → string → string → outcome (service * Session).
Variables APP_NAME DEFAULT_USER_ID : string.

Lemma initialize_session_created (svc svc' : service) (fresh : Session)
    (sessions : gmap string entry) (session_id item : string) :
  create_session svc APP_NAME DEFAULT_USER_ID session_id = Returns (svc', fresh) →
  initialize_session create_session APP_NAME DEFAULT_USER_ID
    {| session_service := Some svc; active_sessions := sessions |} session_id item =
  let s :=
    state_set "workflow_progress" (JDict ∅)
      (state_set "user_preferences" (JDict ∅)
         (state_set "phase_summaries" (JDict ∅)
            (state_set "current_phase" (JStr "design")
               (state_set "current_sprint_item" (JStr item) fresh)))) in
  ({| session_service := Some svc';
      active_sessions := <[session_id := {| session := s; sprint_item_id := item |}]>
                           sessions |},
   Returns s).
Proof. intros Hcreate. unfold initialize_session. cbn. by rewrite Hcreate. Qed.

End session_facts.

(** * Chat initialisation, asked twice *)

(** C8.  With the session service holding no session of the request's id,
    [init_chat] creates the session, registers it in phase design with the
    request's sprint item, and answers that phase.  The same request sent
    again does not succeed: [init_chat] asks the service to create the
    session without looking whether the id is registered, the service
    refuses the id it holds, and the endpoint raises status 500; the
    registered session stays as the first call left it. *)
Theorem init_chat_second_call_raises (app user : string)
    (svc : gmap string Session) (sessions : gmap string entry)
    (request : ChatRequest) :
  svc !! req_session_id request = None →
  ∃ srv1 reply registered,
    init_chat strict_create_session app user
      {| session_service := Some svc; active_sessions := sessions |} request =
      (srv1, Returns (JDict reply)) ∧
    reply !! "phase" = Some (JStr "design") ∧
    active_sessions srv1 !! req_session_id request = Some registered ∧
    state (session registered) !! "current_phase" = Some (JStr "design") ∧
    sprint_item_id registered = req_sprint_item_id request ∧
    init_chat strict_create_session app user srv1 request =
      (srv1, Raises (HTTPException 500
                       ("500: Failed to initialize session: Session with id "
                        +:+ req_session_id request +:+ " already exists."))).
Proof.
  intros Hfresh. unfold init_chat, initialize_session, strict_create_session.
  cbn [session_service active_sessions]. rewrite Hfresh.
  do 3 eexists. split; [reflexivity|].
  split; [reflexivity|].
  split; [apply lookup_insert_eq|].
  split; [reflexivity|].
  split; [reflexivity|].
  cbn [session_service active_sessions]. rewrite lookup_insert_eq. reflexivity.
Qed.

Lemma init_chat_second_call_raises_witness :
  ∃ srv1 reply registered,
    init_chat strict_create_session "sprint_coordinator" "user1234"
      {| session_service := Some ∅; active_sessions := ∅ |} chat_request_sample =
      (srv1, Returns (JDict reply)) ∧
    reply !! "phase" = Some (JStr "design") ∧
    active_sessions srv1 !! "s1" = Some registered ∧
    state (session registered) !! "current_phase" = Some (JStr "design") ∧
    sprint_item_id registered = "s1_item_2" ∧
    init_chat strict_create_session "sprint_coordinator" "user1234" srv1
      chat_request_sample =
      (srv1, Raises (HTTPException 500
                       "500: Failed to initialize session: Session with id s1 already exists.")).
Proof.
  apply (init_chat_second_call_raises "sprint_coordinator" "user1234" ∅ ∅
           chat_request_sample).
  reflexivity.
Defined.

(** * Sessions that fail to start *)

Section session_failures.
Context {service : Type}.
Variable create_session :
  service → string → string → string → outcome (service * Session).
Variables APP_NAME DEFAULT_USER_ID : string.

(** X12.  An [init_chat] that raises registers nothing: the registered
    sessions are what they were, and the exception is an HTTP error with
    status 500.  Without a session service the detail names the missing
    service. *)
Theorem init_chat_failure_keeps_sessions (srv : server service)
    (request : ChatRequest) (e : exn) :
  (init_chat create_session APP_NAME DEFAULT_USER_ID srv request).2 = Raises e →
  active_sessions (init_chat create_session APP_NAME DEFAULT_USER_ID srv request).1 =
    active_sessions srv ∧
  (∃ detail, e = HTTPException 500 detail) ∧
  (session_service srv = None →
   e = HTTPException 500 "500: Session service not initialized").
Proof.
  unfold init_chat, initialize_session.
  destruct (session_service srv) as [svc|] eqn:Hsvc.
  - destruct (create_session svc APP_NAME DEFAULT_USER_ID (req_session_id request))
      as [[svc' fresh]|e'] eqn:Hcreate; cbn.
    + discriminate.
    + intros [= <-]. split; [reflexivity|]. split; [eauto|discriminate].
  - cbn. intros [= <-]. split; [reflexivity|]. split; [eauto|reflexivity].
Qed.

End session_failures.

Lemma init_chat_failure_keeps_sessions_witness :
  active_sessions
    (init_chat strict_create_session "sprint_coordinator" "user1234"
       server_after_init chat_request_sample).1 = active_sessions server_after_init ∧
  (∃ detail,
     HTTPException 500
       "500: Failed to initialize session: Session with id s1 already exists."
     = HTTPException 500 detail) ∧
  (session_service server_after_init = None →
   HTTPException 500
     "500: Failed to initialize session: Session with id s1 already exists."
   = HTTPException 500 "500: Session service not initialized").
Proof.
  apply (init_chat_failure_keeps_sessions strict_create_session
           "sprint_coordinator" "user1234" server_after_init chat_request_sample).
  vm_compute. reflexivity.
Defined.

(** * The streaming relay *)

(** The increments, then at most one closing frame. *)
Lemma forward_increments_closing (run : engine_run) :
  forward run = (increments run ++ option_list (closing run))%list.
Proof.
  induction run as [| e | event rest IH]; cbn; try reflexivity.
  destruct (text_chunk event) as [chunk|]; [|exact IH].
  case_bool_decide; [by rewrite IH|].
  destruct (is_final_response event); [reflexivity|exact IH].
Qed.

(** Events of other authors leave no trace in what is sent. *)
Lemma forward_skips_other_authors (event : Event) (rest : engine_run) :
  author event ≠ "sprint_coordinator" →
  forward (Yields event rest) = forward rest.
Proof.
  intros Hother. cbn. unfold text_chunk.
  by rewrite bool_decide_eq_false_2.
Qed.

(** C6 at a run the engine can produce: the coordinator streams two
    increments and its final response has no text.  The client receives
    the two increments and no terminal frame.  The same holds when the
    engine yields nothing. *)
Theorem relay_turn_without_terminal :
  stream_agent_response_websocket (λ _ _ _, run_final_without_text) true
    "user1234" "s1" "hello" "s1_item_1" = ["Hel"; "lo"] ∧
  filter is_terminal
    (stream_agent_response_websocket (λ _ _ _, run_final_without_text) true
       "user1234" "s1" "hello" "s1_item_1") = [] ∧
  stream_agent_response_websocket (λ _ _ _, run_empty) true
    "user1234" "s1" "hello" "s1_item_1" = [].
Proof. split; [reflexivity|]. split; reflexivity. Qed.

Example relay_turn_with_final :
  forward (Yields (partial_event "design_agent" "draft")
             (Yields (partial_event "sprint_coordinator" "Hel")
                (Yields (partial_event "sprint_coordinator" "lo")
                   (Yields (final_event "sprint_coordinator" ["Hello"]) Stops)))) =
    ["Hel"; "lo"; "--streaming ended--"].
Proof. reflexivity. Qed.

Example relay_turn_failing :
  forward (Yields (partial_event "sprint_coordinator" "Hel")
             (Fails (RuntimeError "model unavailable"))) =
    ["Hel"; "Something went wrong. Please try again."].
Proof. reflexivity. Qed.


(** * Remarks *)

(** Updates that do not decode are refused and nothing is written. *)
Lemma update_with_malformed_json (io : io_fault) (fs : filesystem)
    (name raw : string) :
  update_business_model_canvas io fs name (Garbled raw) =
    (fs, error_payload "Invalid JSON format in updates parameter") ∧
  update_value_proposition_canvas io fs name (Garbled raw) =
    (fs, error_payload "Invalid JSON format in updates parameter") ∧
  update_customer_segments io fs name (Garbled raw) =
    (fs, error_payload "Invalid JSON format in updates parameter").
Proof. split; [reflexivity|]. split; reflexivity. Qed.

(** Once a segment record has been replaced by a value that is not a
    mapping, the loop can no longer get past it: an update of a later
    segment ends in the handler of the outer [try]. *)
Example update_behind_replaced_record :
  update_customer_segments NoFault
    (update_customer_segments NoFault fs_segments "seg_01"
       (Encodes (JList [JStr "gone"]))).1
    "seg_03" (Encodes (JDict pain_points_patch)) =
    ((update_customer_segments NoFault fs_segments "seg_01"
        (Encodes (JList [JStr "gone"]))).1,
     error_payload
       "Failed to update customer segments: 'list' object has no attribute 'get'").
Proof. vm_compute. reflexivity. Qed.


(** * Saving *)

Lemma temp_file_differs (p : path) : suffix p ≠ ".tmp" → with_suffix p ".tmp" ≠ p.
Proof. intros Hsuf Heq. apply Hsuf. by rewrite <- Heq. Qed.

(** X1.  A save that meets no fault answers [True]; the document then
    loads as the data saved, and the temporary file is gone.  Both
    savers. *)
Theorem save_then_load_round_trip (fs : filesystem) (p : path) (data : json) :
  suffix p ≠ ".tmp" →
  (_save_json_file NoFault fs p data).2 = true ∧
  _load_json_file (_save_json_file NoFault fs p data).1 p = data ∧
  (_save_json_file NoFault fs p data).1 !! with_suffix p ".tmp" = None ∧
  (_save_sprints_data NoFault fs data).2 = true ∧
  _load_sprints_data (_save_sprints_data NoFault fs data).1 = data ∧
  (_save_sprints_data NoFault fs data).1 !! with_suffix SPRINTS_FILE ".tmp" = None.
Proof.
  intros Hsuf. pose proof (temp_file_differs p Hsuf) as Hne.
  split; [reflexivity|]. split; [apply save_json_file_then_load|].
  split.
  { cbn. rewrite lookup_insert_ne by done. apply lookup_delete_eq. }
  split; [reflexivity|]. split; [apply save_sprints_data_then_load|].
  cbn. rewrite lookup_insert_ne by done. apply lookup_delete_eq.
Qed.

Lemma save_then_load_round_trip_witness :
  (_save_json_file NoFault fs_sample BMC_FILE patch_sample).2 = true ∧
  _load_json_file (_save_json_file NoFault fs_sample BMC_FILE patch_sample).1 BMC_FILE
    = patch_sample ∧
  (_save_json_file NoFault fs_sample BMC_FILE patch_sample).1
    !! with_suffix BMC_FILE ".tmp" = None ∧
  (_save_sprints_data NoFault fs_sample patch_sample).2 = true ∧
  _load_sprints_data (_save_sprints_data NoFault fs_sample patch_sample).1 = patch_sample ∧
  (_save_sprints_data NoFault fs_sample patch_sample).1
    !! with_suffix SPRINTS_FILE ".tmp" = None.
Proof.
  apply (save_then_load_round_trip fs_sample BMC_FILE patch_sample).
  discriminate.
Defined.

(** X2.  A save that answers [False] has not touched the document: every
    file other than the temporary one is what it was.  Both savers. *)
Theorem failed_save_keeps_document (io : io_fault) (fs : filesystem) (p : path)
    (data : json) :
  ((_save_json_file io fs p data).2 = false →
   ∀ q, q ≠ with_suffix p ".tmp" → (_save_json_file io fs p data).1 !! q = fs !! q) ∧
  ((_save_sprints_data io fs data).2 = false →
   ∀ q, q ≠ with_suffix SPRINTS_FILE ".tmp" →
     (_save_sprints_data io fs data).1 !! q = fs !! q).
Proof.
  split; intros Hfail q Hq;
    destruct io; cbn in *; try discriminate Hfail;
    rewrite ?lookup_insert_ne by done; reflexivity.
Qed.

Lemma failed_save_keeps_document_witness :
  (_save_json_file (DumpFails "{") fs_sample BMC_FILE patch_sample).1 !! BMC_FILE
    = fs_sample !! BMC_FILE ∧
  (_save_sprints_data ReplaceFails fs_sprints patch_sample).1 !! SPRINTS_FILE
    = fs_sprints !! SPRINTS_FILE.
Proof.
  split.
  - apply (proj1 (failed_save_keeps_document (DumpFails "{") fs_sample BMC_FILE
                    patch_sample) eq_refl).
    discriminate.
  - apply (proj2 (failed_save_keeps_document ReplaceFails fs_sprints BMC_FILE
                    patch_sample) eq_refl).
    discriminate.
Defined.

(** * Updates as a whole *)

Lemma success_payload_is_success (rest : list (string * json)) :
  is_success (py_dict (("success", JBool true) :: rest)).
Proof. eexists. split; [reflexivity|]. cbn. apply lookup_insert_eq. Qed.

Lemma save_sprints_data_other (io : io_fault) (fs : filesystem) (q : path) (data : json) :
  q ≠ SPRINTS_FILE → q ≠ with_suffix SPRINTS_FILE ".tmp" →
  (_save_sprints_data io fs data).1 !! q = fs !! q.
Proof.
  intros Hp Ht. destruct io; cbn;
    rewrite ?lookup_insert_ne, ?lookup_delete_ne, ?lookup_insert_ne by done; done.
Qed.

(** What each update may write: its document and the temporary file of
    that document. *)
Lemma update_business_model_canvas_other (io : io_fault) (fs : filesystem)
    (name : string) (updates : text) (q : path) :
  q ≠ BMC_FILE → q ≠ with_suffix BMC_FILE ".tmp" →
  (update_business_model_canvas io fs name updates).1 !! q = fs !! q.
Proof.
  intros Hp Ht. unfold update_business_model_canvas.
  destruct (json_loads updates) as [patch|e]; [|reflexivity].
  destruct (apply_section_updates _ name patch) as [data|e]; [|reflexivity].
  pose proof (save_json_file_other io fs BMC_FILE q data Hp Ht) as Hsave.
  destruct (_save_json_file io fs BMC_FILE data) as [fs' []]; exact Hsave.
Qed.

Lemma update_value_proposition_canvas_other (io : io_fault) (fs : filesystem)
    (name : string) (updates : text) (q : path) :
  q ≠ VPC_FILE → q ≠ with_suffix VPC_FILE ".tmp" →
  (update_value_proposition_canvas io fs name updates).1 !! q = fs !! q.
Proof.
  intros Hp Ht. unfold update_value_proposition_canvas.
  destruct (json_loads updates) as [patch|e]; [|reflexivity].
  destruct (apply_section_updates _ name patch) as [data|e]; [|reflexivity].
  pose proof (save_json_file_other io fs VPC_FILE q data Hp Ht) as Hsave.
  destruct (_save_json_file io fs VPC_FILE data) as [fs' []]; exact Hsave.
Qed.

Lemma update_customer_segments_other (io : io_fault) (fs : filesystem)
    (segment_id : string) (updates : text) (q : path) :
  q ≠ SEGMENTS_FILE → q ≠ with_suffix SEGMENTS_FILE ".tmp" →
  (update_customer_segments io fs segment_id updates).1 !! q = fs !! q.
Proof.
  intros Hp Ht. unfold update_customer_segments.
  destruct (json_loads updates) as [patch|e]; [|reflexivity].
  match goal with |- context [match ?c with _ => _ end] =>
    destruct c as [[segments|]|e] end; try reflexivity.
  match goal with |- context [_save_json_file io fs SEGMENTS_FILE ?d] =>
    pose proof (save_json_file_other io fs SEGMENTS_FILE q d Hp Ht) as Hsave;
    destruct (_save_json_file io fs SEGMENTS_FILE d) as [fs' []]; exact Hsave end.
Qed.

Lemma update_sprint_item_status_other (io : io_fault) (fs : filesystem)
    (item_id status notes : string) (q : path) :
  q ≠ SPRINTS_FILE → q ≠ with_suffix SPRINTS_FILE ".tmp" →
  (update_sprint_item_status io fs item_id status notes).1 !! q = fs !! q.
Proof.
  intros Hp Ht. unfold update_sprint_item_status.
  case_bool_decide; [reflexivity|].
  match goal with |- context [match ?c with _ => _ end] =>
    destruct c as [[sprints|]|e] end; try reflexivity.
  match goal with |- context [_save_sprints_data io fs ?d] =>
    pose proof (save_sprints_data_other io fs q d Hp Ht) as Hsave;
    destruct (_save_sprints_data io fs d) as [fs' []]; exact Hsave end.
Qed.

Lemma update_business_model_canvas_all_or_nothing (io : io_fault) (fs : filesystem)
    (name : string) (updates : text) :
  is_success (update_business_model_canvas io fs name updates).2 ∨
  (update_business_model_canvas io fs name updates).1 !! BMC_FILE = fs !! BMC_FILE.
Proof.
  unfold update_business_model_canvas.
  destruct (json_loads updates) as [patch|e]; [|by right].
  destruct (apply_section_updates _ name patch) as [data|e]; [|by right].
  destruct io; cbn; [left; apply success_payload_is_success|by right|right..];
    by rewrite lookup_insert_ne.
Qed.

Lemma update_value_proposition_canvas_all_or_nothing (io : io_fault) (fs : filesystem)
    (name : string) (updates : text) :
  is_success (update_value_proposition_canvas io fs name updates).2 ∨
  (update_value_proposition_canvas io fs name updates).1 !! VPC_FILE = fs !! VPC_FILE.
Proof.
  unfold update_value_proposition_canvas.
  destruct (json_loads updates) as [patch|e]; [|by right].
  destruct (apply_section_updates _ name patch) as [data|e]; [|by right].
  destruct io; cbn; [left; apply success_payload_is_success|by right|right..];
    by rewrite lookup_insert_ne.
Qed.

Lemma update_customer_segments_all_or_nothing (io : io_fault) (fs : filesystem)
    (segment_id : string) (updates : text) :
  is_success (update_customer_segments io fs segment_id updates).2 ∨
  (update_customer_segments io fs segment_id updates).1 !! SEGMENTS_FILE
    = fs !! SEGMENTS_FILE.
Proof.
  unfold update_customer_segments.
  destruct (json_loads updates) as [patch|e]; [|by right].
  match goal with |- context [match ?c with _ => _ end] =>
    destruct c as [[segments|]|e] end; try by right.
  destruct io; cbn; [left; apply success_payload_is_success|by right|right..];
    by rewrite lookup_insert_ne.
Qed.

Lemma update_sprint_item_status_all_or_nothing (io : io_fault) (fs : filesystem)
    (item_id status notes : string) :
  is_success (update_sprint_item_status io fs item_id status notes).2 ∨
  (update_sprint_item_status io fs item_id status notes).1 !! SPRINTS_FILE
    = fs !! SPRINTS_FILE.
Proof.
  unfold update_sprint_item_status.
  case_bool_decide; [by right|].
  match goal with |- context [match ?c with _ => _ end] =>
    destruct c as [[sprints|]|e] end; try by right.
  destruct io; cbn; [left; apply success_payload_is_success|by right|right..];
    by rewrite lookup_insert_ne.
Qed.

(** X3.  Every update is all or nothing on its document: either the reply
    is the success payload, or the file of the document is what it was
    before the call.  This holds for every fault of the save and every
    argument. *)
Theorem updates_all_or_nothing (io : io_fault) (fs : filesystem)
    (name status notes : string) (updates : text) :
  (is_success (update_business_model_canvas io fs name updates).2 ∨
   (update_business_model_canvas io fs name updates).1 !! BMC_FILE = fs !! BMC_FILE) ∧
  (is_success (update_value_proposition_canvas io fs name updates).2 ∨
   (update_value_proposition_canvas io fs name updates).1 !! VPC_FILE = fs !! VPC_FILE) ∧
  (is_success (update_customer_segments io fs name updates).2 ∨
   (update_customer_segments io fs name updates).1 !! SEGMENTS_FILE
     = fs !! SEGMENTS_FILE) ∧
  (is_success (update_sprint_item_status io fs name status notes).2 ∨
   (update_sprint_item_status io fs name status notes).1 !! SPRINTS_FILE
     = fs !! SPRINTS_FILE).
Proof.
  split; [apply update_business_model_canvas_all_or_nothing|].
  split; [apply update_value_proposition_canvas_all_or_nothing|].
  split; [apply update_customer_segments_all_or_nothing|].
  apply update_sprint_item_status_all_or_nothing.
Qed.

(** X4.  An update of one document leaves the other three as they load:
    the two canvases, the segments and the sprints do not share a file or a
    temporary file. *)
Theorem updates_touch_one_document (io : io_fault) (fs : filesystem)
    (name status notes : string) (updates : text) :
  (let fs' := (update_business_model_canvas io fs name updates).1 in
   get_value_proposition_canvas fs' = get_value_proposition_canvas fs ∧
   get_customer_segments fs' = get_customer_segments fs ∧
   get_sprint_items fs' = get_sprint_items fs) ∧
  (let fs' := (update_value_proposition_canvas io fs name updates).1 in
   get_business_model_canvas fs' = get_business_model_canvas fs ∧
   get_customer_segments fs' = get_customer_segments fs ∧
   get_sprint_items fs' = get_sprint_items fs) ∧
  (let fs' := (update_customer_segments io fs name updates).1 in
   get_business_model_canvas fs' = get_business_model_canvas fs ∧
   get_value_proposition_canvas fs' = get_value_proposition_canvas fs ∧
   get_sprint_items fs' = get_sprint_items fs) ∧
  (let fs' := (update_sprint_item_status io fs name status notes).1 in
   get_business_model_canvas fs' = get_business_model_canvas fs ∧
   get_value_proposition_canvas fs' = get_value_proposition_canvas fs ∧
   get_customer_segments fs' = get_customer_segments fs).
Proof.
  unfold get_business_model_canvas, get_value_proposition_canvas,
    get_customer_segments, get_sprint_items.
  cbn zeta. rewrite !load_json_file_lookup, !load_sprints_data_lookup.
  rewrite !update_business_model_canvas_other,
    !update_value_proposition_canvas_other,
    !update_customer_segments_other,
    !update_sprint_item_status_other by done.
  done.
Qed.

(** * Canvas updates, composed *)

Lemma apply_section_updates_non_dict (data : json) (name : string) (patch : json) :
  isinstance_dict data = false →
  ∃ msg, apply_section_updates data name patch = Raises (TypeError msg).
Proof.
  intros Hshape. unfold apply_section_updates.
  destruct data; try discriminate Hshape; cbn; eauto.
  - destruct (bool_decide _); cbn; eauto.
  - destruct (existsb _ _); cbn; eauto.
Qed.

Lemma update_business_model_canvas_load (fs : filesystem) (name : string)
    (updates : text) :
  get_business_model_canvas (update_business_model_canvas NoFault fs name updates).1 =
    canvas_after (get_business_model_canvas fs) name updates.
Proof.
  unfold get_business_model_canvas, update_business_model_canvas.
  destruct updates as [raw|patch]; cbn [json_loads canvas_after fst]; [reflexivity|].
  destruct (_load_json_file fs BMC_FILE) as [| | | | | |doc] eqn:Hdata;
    try (edestruct apply_section_updates_non_dict as [msg ->];
         [reflexivity|cbn; by rewrite Hdata]).
  rewrite apply_section_updates_dict. cbn.
  rewrite load_json_file_lookup. by rewrite lookup_insert_eq.
Qed.

Lemma update_value_proposition_canvas_load (fs : filesystem) (name : string)
    (updates : text) :
  get_value_proposition_canvas
    (update_value_proposition_canvas NoFault fs name updates).1 =
    canvas_after (get_value_proposition_canvas fs) name updates.
Proof.
  unfold get_value_proposition_canvas, update_value_proposition_canvas.
  destruct updates as [raw|patch]; cbn [json_loads canvas_after fst]; [reflexivity|].
  destruct (_load_json_file fs VPC_FILE) as [| | | | | |doc] eqn:Hdata;
    try (edestruct apply_section_updates_non_dict as [msg ->];
         [reflexivity|cbn; by rewrite Hdata]).
  rewrite apply_section_updates_dict. cbn.
  rewrite load_json_file_lookup. by rewrite lookup_insert_eq.
Qed.

Lemma merge_keys_idemp (old new : gmap string json) :
  merge_keys (merge_keys old new) new = merge_keys old new.
Proof.
  apply map_eq. intros k. rewrite !merge_keys_lookup. by destruct (new !! k).
Qed.

Lemma merge_keys_diag (new : gmap string json) : merge_keys new new = new.
Proof.
  apply map_eq. intros k. rewrite merge_keys_lookup. by destruct (new !! k).
Qed.

Lemma merge_on_matching_shape_idemp (existing : option json) (patch : json) :
  merge_on_matching_shape (Some (merge_on_matching_shape existing patch)) patch =
    merge_on_matching_shape existing patch.
Proof.
  destruct existing as [[]|], patch; cbn;
    rewrite ?merge_keys_idemp, ?merge_keys_diag; reflexivity.
Qed.

Lemma canvas_after_idemp (data : json) (name : string) (updates : text) :
  canvas_after (canvas_after data name updates) name updates =
    canvas_after data name updates.
Proof.
  destruct updates as [raw|patch], data; cbn; try reflexivity.
  rewrite lookup_insert_eq, merge_on_matching_shape_idemp.
  by rewrite insert_insert_eq.
Qed.

Lemma canvas_after_commute (data : json) (name1 name2 : string)
    (updates1 updates2 : text) :
  name1 ≠ name2 →
  canvas_after (canvas_after data name1 updates1) name2 updates2 =
    canvas_after (canvas_after data name2 updates2) name1 updates1.
Proof.
  intros Hne.
  destruct updates1 as [raw1|patch1], updates2 as [raw2|patch2], data;
    cbn; try reflexivity.
  rewrite !lookup_insert_ne by done.
  by rewrite insert_insert_ne.
Qed.

(** X5.  Canvas updates are idempotent: sending the same update of the
    same section a second time leaves the canvas as the first update left
    it.  Both canvases, every stored document and every update text, the
    saves succeeding. *)
Theorem canvas_update_idempotent (fs : filesystem) (name : string) (updates : text) :
  get_business_model_canvas
    (update_business_model_canvas NoFault
       (update_business_model_canvas NoFault fs name updates).1 name updates).1 =
    get_business_model_canvas (update_business_model_canvas NoFault fs name updates).1 ∧
  get_value_proposition_canvas
    (update_value_proposition_canvas NoFault
       (update_value_proposition_canvas NoFault fs name updates).1 name updates).1 =
    get_value_proposition_canvas
      (update_value_proposition_canvas NoFault fs name updates).1.
Proof.
  rewrite !update_business_model_canvas_load, !update_value_proposition_canvas_load.
  by rewrite !canvas_after_idemp.
Qed.

(** X6.  Updates of two different sections of a canvas commute: the canvas
    loads the same whichever of the two is applied first.  Both canvases,
    the saves succeeding. *)
Theorem canvas_updates_commute (fs : filesystem) (name1 name2 : string)
    (updates1 updates2 : text) :
  name1 ≠ name2 →
  get_business_model_canvas
    (update_business_model_canvas NoFault
       (update_business_model_canvas NoFault fs name1 updates1).1 name2 updates2).1 =
    get_business_model_canvas
      (update_business_model_canvas NoFault
         (update_business_model_canvas NoFault fs name2 updates2).1 name1 updates1).1 ∧
  get_value_proposition_canvas
    (update_value_proposition_canvas NoFault
       (update_value_proposition_canvas NoFault fs name1 updates1).1 name2 updates2).1 =
    get_value_proposition_canvas
      (update_value_proposition_canvas NoFault
         (update_value_proposition_canvas NoFault fs name2 updates2).1 name1 updates1).1.
Proof.
  intros Hne.
  rewrite !update_business_model_canvas_load, !update_value_proposition_canvas_load.
  split; by apply canvas_after_commute.
Qed.

Lemma canvas_updates_commute_witness :
  get_business_model_canvas
    (update_business_model_canvas NoFault
       (update_business_model_canvas NoFault fs_sample "Key Partners"
          (Encodes patch_sample)).1 "Channels" (Encodes (JList []))).1 =
    get_business_model_canvas
      (update_business_model_canvas NoFault
         (update_business_model_canvas NoFault fs_sample "Channels"
            (Encodes (JList []))).1 "Key Partners" (Encodes patch_sample)).1 ∧
  get_value_proposition_canvas
    (update_value_proposition_canvas NoFault
       (update_value_proposition_canvas NoFault fs_sample "Key Partners"
          (Encodes patch_sample)).1 "Channels" (Encodes (JList []))).1 =
    get_value_proposition_canvas
      (update_value_proposition_canvas NoFault
         (update_value_proposition_canvas NoFault fs_sample "Channels"
            (Encodes (JList []))).1 "Key Partners" (Encodes patch_sample)).1.
Proof.
  apply (canvas_updates_commute fs_sample "Key Partners" "Channels"
           (Encodes patch_sample) (Encodes (JList []))).
  discriminate.
Defined.

(** X7.  A canvas whose stored document is not a mapping (a list, a
    string, a number) cannot be updated: whatever the section and the
    patch, the update ends in a [TypeError], the reply is the
    failed-to-update error carrying its text, and nothing is written. *)
Theorem canvas_update_needs_a_mapping (io : io_fault) (fs : filesystem)
    (name : string) (patch : json) :
  (isinstance_dict (get_business_model_canvas fs) = false →
   ∃ msg,
     update_business_model_canvas io fs name (Encodes patch) =
       (fs, error_payload ("Failed to update Business Model Canvas: " +:+ msg))) ∧
  (isinstance_dict (get_value_proposition_canvas fs) = false →
   ∃ msg,
     update_value_proposition_canvas io fs name (Encodes patch) =
       (fs, error_payload ("Failed to update Value Proposition Canvas: " +:+ msg))).
Proof.
  unfold get_business_model_canvas, get_value_proposition_canvas.
  split; intros Hshape.
  - destruct (apply_section_updates_non_dict _ name patch Hshape) as [msg Hraise].
    exists msg. unfold update_business_model_canvas. cbn [json_loads].
    by rewrite Hraise.
  - destruct (apply_section_updates_non_dict _ name patch Hshape) as [msg Hraise].
    exists msg. unfold update_value_proposition_canvas. cbn [json_loads].
    by rewrite Hraise.
Qed.

Lemma canvas_update_needs_a_mapping_witness :
  (∃ msg,
     update_business_model_canvas NoFault
       {[BMC_FILE := Holds (Encodes (JList [JStr "Key Partners"]))]}
       "Key Partners" (Encodes patch_sample) =
       ({[BMC_FILE := Holds (Encodes (JList [JStr "Key Partners"]))]},
        error_payload ("Failed to update Business Model Canvas: " +:+ msg))) ∧
  (∃ msg,
     update_value_proposition_canvas NoFault
       {[VPC_FILE := Holds (Encodes (JInt 7))]} "Gains" (Encodes patch_sample) =
       ({[VPC_FILE := Holds (Encodes (JInt 7))]},
        error_payload ("Failed to update Value Proposition Canvas: " +:+ msg))).
Proof.
  split.
  - apply (proj1 (canvas_update_needs_a_mapping NoFault
                    {[BMC_FILE := Holds (Encodes (JList [JStr "Key Partners"]))]}
                    "Key Partners" patch_sample)).
    reflexivity.
  - apply (proj2 (canvas_update_needs_a_mapping NoFault
                    {[VPC_FILE := Holds (Encodes (JInt 7))]} "Gains" patch_sample)).
    reflexivity.
Defined.

(** * Sprint items, looked up *)

Lemma no_item_in_cons (item_id : string) (x : json) (l : list json) :
  no_item_in item_id (x :: l) →
  (∃ sprint elements,
     x = JDict sprint ∧
     py_iter (default (JList []) (sprint !! "items")) = Returns elements ∧
     no_match "item_id" item_id elements) ∧
  no_item_in item_id l.
Proof.
  intros Hno. split.
  - apply Hno. left.
  - intros y Hy. apply Hno. by right.
Qed.

Lemma find_item_in_sprints_none (sprints : list json) (item_id : string) :
  no_item_in item_id sprints →
  find_item_in_sprints sprints item_id = Returns None.
Proof.
  induction sprints as [|x rest IH]; intros Hno; [reflexivity|].
  apply no_item_in_cons in Hno as [(sprint & elements & -> & Hiter & Hnone) Hrest].
  cbn. rewrite Hiter. cbn.
  rewrite (find_item_in_no_match _ _ Hnone). cbn. by apply IH.
Qed.

Lemma update_item_in_sprints_none (sprints : list json) (item_id status notes : string) :
  no_item_in item_id sprints →
  update_item_in_sprints sprints item_id status notes = Returns None.
Proof.
  induction sprints as [|x rest IH]; intros Hno; [reflexivity|].
  apply no_item_in_cons in Hno as [(sprint & elements & -> & Hiter & Hnone) Hrest].
  cbn. rewrite Hiter. cbn.
  rewrite (update_item_in_no_match _ _ status notes Hnone). cbn.
  by rewrite (IH Hrest).
Qed.

(** X8.  With the sprints document a mapping: [get_sprint_item] returns
    the first item with the id, in the order sprints and their items are
    stored; it returns the not-found error when no sprint holds the id, and
    also when the document has no ["sprints"] key at all. *)
Theorem get_sprint_item_first_or_not_found (fs : filesystem)
    (data : gmap string json) (item_id : string) :
  get_sprint_items fs = JDict data →
  (∀ sprints i j sprint items item,
     data !! "sprints" = Some (JList sprints) →
     first_item_at item_id sprints i j sprint items item →
     get_sprint_item fs item_id = JDict item) ∧
  (∀ sprints,
     data !! "sprints" = Some (JList sprints) →
     no_item_in item_id sprints →
     get_sprint_item fs item_id =
       error_payload ("Sprint item '" +:+ item_id +:+ "' not found")) ∧
  (data !! "sprints" = None →
   get_sprint_item fs item_id =
     error_payload ("Sprint item '" +:+ item_id +:+ "' not found")).
Proof.
  unfold get_sprint_items. intros Hdata. unfold get_sprint_item. rewrite Hdata.
  split; [|split].
  - intros sprints i j sprint items item Hsprints Hfirst. cbn.
    rewrite Hsprints. cbn.
    by rewrite (find_item_in_sprints_first _ _ _ _ _ _ _ Hfirst).
  - intros sprints Hsprints Hno. cbn. rewrite Hsprints. cbn.
    by rewrite (find_item_in_sprints_none _ _ Hno).
  - intros Hnone. cbn. by rewrite Hnone.
Qed.

Lemma sprints_sample_no_item :
  no_item_in "s9_item_9" [JDict sprint_1; JDict sprint_2].
Proof.
  intros x Hx.
  apply elem_of_cons in Hx as [->|Hx]; [|apply elem_of_cons in Hx as [->|Hx]].
  - exists sprint_1, [JDict s1_item_1; JDict s1_item_2].
    split; [reflexivity|]. split; [reflexivity|].
    apply no_match_add; [vm_compute; discriminate|].
    apply no_match_add; [vm_compute; discriminate|]. apply no_match_nil.
  - exists sprint_2, [JDict s2_item_1].
    split; [reflexivity|]. split; [reflexivity|].
    apply no_match_add; [vm_compute; discriminate|]. apply no_match_nil.
  - by apply elem_of_nil in Hx.
Qed.

Lemma get_sprint_item_first_or_not_found_witness :
  get_sprint_item fs_sprints "s1_item_2" = JDict s1_item_2 ∧
  get_sprint_item fs_sprints "s9_item_9" =
    error_payload "Sprint item 's9_item_9' not found" ∧
  get_sprint_item {[SPRINTS_FILE := Holds (Encodes (JDict bmc_sample))]} "s1_item_2" =
    error_payload "Sprint item 's1_item_2' not found".
Proof.
  split; [|split].
  - apply (proj1 (get_sprint_item_first_or_not_found fs_sprints sprints_doc
                    "s1_item_2" eq_refl)
             [JDict sprint_1; JDict sprint_2] 0 1 sprint_1
             [JDict s1_item_1; JDict s1_item_2] s1_item_2 eq_refl).
    exact s1_item_2_first.
  - apply (proj1 (proj2 (get_sprint_item_first_or_not_found fs_sprints sprints_doc
                           "s9_item_9" eq_refl))
             [JDict sprint_1; JDict sprint_2] eq_refl).
    exact sprints_sample_no_item.
  - refine (proj2 (proj2 (get_sprint_item_first_or_not_found
                            {[SPRINTS_FILE := Holds (Encodes (JDict bmc_sample))]}
                            bmc_sample "s1_item_2" _)) _); reflexivity.
Defined.

(** X9.  An update of the status of an id that no sprint holds is answered
    with the not-found error and writes nothing, whatever the fault mode of
    the save, the status being one of the enumeration. *)
Theorem update_sprint_item_status_unknown_id (io : io_fault) (fs : filesystem)
    (data : gmap string json) (sprints : list json) (item_id status notes : string) :
  get_sprint_items fs = JDict data →
  data !! "sprints" = Some (JList sprints) →
  status ∈ valid_statuses →
  no_item_in item_id sprints →
  update_sprint_item_status io fs item_id status notes =
    (fs, error_payload ("Sprint item '" +:+ item_id +:+ "' not found")).
Proof.
  unfold get_sprint_items. intros Hdata Hsprints Hvalid Hno.
  unfold update_sprint_item_status.
  rewrite bool_decide_eq_false_2 by (intros Hnot; by apply Hnot).
  rewrite Hdata. cbn. rewrite Hsprints. cbn.
  by rewrite (update_item_in_sprints_none _ _ status notes Hno).
Qed.

Lemma update_sprint_item_status_unknown_id_witness :
  update_sprint_item_status NoFault fs_sprints "s9_item_9" "completed" "done" =
    (fs_sprints, error_payload "Sprint item 's9_item_9' not found").
Proof.
  apply (update_sprint_item_status_unknown_id NoFault fs_sprints sprints_doc
           [JDict sprint_1; JDict sprint_2] "s9_item_9" "completed" "done"
           eq_refl eq_refl).
  - do 2 right. left.
  - exact sprints_sample_no_item.
Defined.

Lemma find_item_in_replace_other (items : list json) (item_id other : string)
    (j : nat) (item item' : gmap string json) :
  first_match_at "item_id" item_id items j item →
  item' !! "item_id" = Some (JStr item_id) →
  other ≠ item_id →
  find_item_in (<[j := JDict item']> items) other = find_item_in items other.
Proof.
  intros Hfirst Hid' Hother. revert items Hfirst.
  induction j as [|j IH]; intros [|x rest] Hfirst;
    try (destruct Hfirst as (Hx & _); discriminate Hx).
  - apply first_match_at_head in Hfirst as [-> Hid]. cbn.
    rewrite Hid, Hid'. cbn.
    by rewrite (proj2 (String.eqb_neq item_id other)) by congruence.
  - apply first_match_at_tail in Hfirst as [(r & -> & Hne) Hrest]. cbn.
    destruct (eq_str (default JNull (r !! "item_id")) other); [reflexivity|].
    by apply IH.
Qed.

Lemma find_item_in_sprints_replace_other (sprints : list json)
    (item_id other : string) (i j : nat) (sprint : gmap string json)
    (items : list json) (item item' : gmap string json) :
  first_item_at item_id sprints i j sprint items item →
  item' !! "item_id" = Some (JStr item_id) →
  other ≠ item_id →
  find_item_in_sprints
    (<[i := JDict (<["items" := JList (<[j := JDict item']> items)]> sprint)]> sprints)
    other = find_item_in_sprints sprints other.
Proof.
  intros Hfirst Hid' Hother. revert sprints Hfirst.
  induction i as [|i IH]; intros [|x rest] Hfirst;
    try (destruct Hfirst as (Hx & _); discriminate Hx).
  - apply first_item_at_head in Hfirst as (-> & Hitems & Hfirst). cbn.
    rewrite lookup_insert_eq, Hitems. cbn.
    by rewrite (find_item_in_replace_other _ _ _ _ _ _ Hfirst Hid' Hother).
  - apply first_item_at_tail in Hfirst
      as [(sprint' & elements & -> & Hiter & Hno) Hrest].
    cbn. rewrite Hiter. cbn.
    destruct (find_item_in elements other) as [[found|]|e]; cbn; try reflexivity.
    by apply IH.
Qed.

(** X10.  An update of the status of one id does not change what
    [get_sprint_item] returns for any other id: whatever the call does
    (succeed, be refused, fail to save), the lookup of another id gives the
    same answer after it as before. *)
Theorem update_sprint_item_status_keeps_other_items (io : io_fault)
    (fs : filesystem) (item_id status notes other : string) :
  other ≠ item_id →
  get_sprint_item (update_sprint_item_status io fs item_id status notes).1 other =
    get_sprint_item fs other.
Proof.
  intros Hother.
  destruct (update_sprint_item_status_all_or_nothing io fs item_id status notes)
    as [Hsuccess|Hsame].
  - destruct (update_sprint_item_status_success_inv _ _ _ _ _ Hsuccess)
      as (-> & Hvalid & data & sprints & i & j & sprint & items & item &
          Hdata & Hsprints & Hfirst).
    rewrite (update_sprint_item_status_located fs data sprints item_id status notes
               i j sprint items item Hdata Hsprints Hvalid Hfirst).
    unfold get_sprint_item, get_sprint_items in *. cbn [fst].
    rewrite save_sprints_data_then_load, Hdata. cbn.
    rewrite lookup_insert_eq, Hsprints. cbn.
    assert (item_after item status notes !! "item_id" = Some (JStr item_id)) as Hid.
    { rewrite item_after_other by done.
      by destruct Hfirst as (_ & _ & (_ & Hid & _) & _). }
    by rewrite (find_item_in_sprints_replace_other _ _ _ _ _ _ _ _ _ Hfirst Hid Hother).
  - unfold get_sprint_item. rewrite !load_sprints_data_lookup. by rewrite Hsame.
Qed.

Lemma update_sprint_item_status_keeps_other_items_witness :
  get_sprint_item
    (update_sprint_item_status NoFault fs_sprints "s1_item_1" "completed" "ok").1
    "s1_item_2" = get_sprint_item fs_sprints "s1_item_2".
Proof.
  apply (update_sprint_item_status_keeps_other_items NoFault fs_sprints
           "s1_item_1" "completed" "ok" "s1_item_2").
  discriminate.
Defined.

(** * Items of a user *)

Lemma items_assigned_to_records (items : list json) (user_id : string) :
  (∀ y, y ∈ items → isinstance_dict y = true) →
  items_assigned_to items user_id =
    Returns (filter (λ item, assigned_to user_id item) items).
Proof.
  induction items as [|x rest IH]; intros Hrec; [reflexivity|].
  assert (isinstance_dict x = true) as Hx by (apply Hrec; left).
  destruct x as [| | | | | |m]; try discriminate Hx.
  rewrite filter_cons.
  cbn [items_assigned_to py_get mbind outcome_bind assigned_to].
  rewrite IH by (intros y Hy; apply Hrec; by right).
  cbn [mbind outcome_bind].
  destruct (eq_str (default JNull (m !! "assignee")) user_id); reflexivity.
Qed.

Lemma sprint_items_records (m : gmap string json) (items : list json) :
  default (JList []) (m !! "items") = JList items →
  sprint_items (JDict m) = items.
Proof.
  unfold sprint_items. destruct (m !! "items") as [v|]; cbn.
  - by intros ->.
  - by intros [= <-].
Qed.

Lemma sprints_assigned_to_records (sprints : list json) (user_id : string) :
  sprint_records sprints →
  sprints_assigned_to sprints user_id =
    Returns (omap (sprint_info_for user_id) sprints).
Proof.
  induction sprints as [|x rest IH]; intros Hrec; [reflexivity|].
  destruct (Hrec x) as (m & items & -> & Hitems & Hdicts); [left|].
  cbn. rewrite Hitems. cbn.
  rewrite (items_assigned_to_records _ _ Hdicts). cbn.
  rewrite IH by (intros y Hy; apply Hrec; by right). cbn.
  unfold sprint_info_for. rewrite (sprint_items_records _ _ Hitems).
  destruct (filter _ items); reflexivity.
Qed.

Lemma len_items_sprint_info (sprint_id title goal : json) (kept : list json) :
  len_items (py_dict [("sprint_id", sprint_id); ("title", title);
                      ("goal", goal); ("items", JList kept)]) =
    Z.of_nat (length kept).
Proof.
  unfold len_items, py_dict. cbn.
  by rewrite !lookup_insert_ne, lookup_insert_eq by done.
Qed.

Lemma total_items_omap (sprints : list json) (user_id : string) :
  total_items (omap (sprint_info_for user_id) sprints) =
    Z.of_nat (length (filter (λ item, assigned_to user_id item)
                        (concat (sprint_items <$> sprints)))).
Proof.
  induction sprints as [|x rest IH]; [reflexivity|].
  cbn [omap list_omap fmap list_fmap concat].
  rewrite filter_app, length_app, Nat2Z.inj_add, <- IH.
  unfold sprint_info_for.
  destruct (filter _ (sprint_items x)) as [|y kept] eqn:Hkept; [reflexivity|].
  cbn [total_items foldr]. by rewrite len_items_sprint_info.
Qed.

(** X11.  On a sprints document whose sprints are records with lists of
    item records, [get_user_sprint_items] lists exactly the sprints that
    hold at least one item whose assignee is the user, in their order, each
    with its id, title, goal and those items in their order; and
    [total_items] is the number of items of the whole document that are
    assigned to the user. *)
Theorem get_user_sprint_items_of_records (fs : filesystem)
    (data : gmap string json) (sprints : list json) (user_id : string) :
  get_sprint_items fs = JDict data →
  default (JList []) (data !! "sprints") = JList sprints →
  sprint_records sprints →
  get_user_sprint_items fs user_id =
    py_dict [("user_id", JStr user_id);
             ("sprints", JList (omap (sprint_info_for user_id) sprints));
             ("total_items",
              JInt (Z.of_nat (length (filter (λ item, assigned_to user_id item)
                                        (concat (sprint_items <$> sprints))))))].
Proof.
  unfold get_sprint_items. intros Hdata Hsprints Hrec.
  unfold get_user_sprint_items. rewrite Hdata. cbn. rewrite Hsprints. cbn.
  rewrite (sprints_assigned_to_records _ _ Hrec).
  by rewrite total_items_omap.
Qed.

Lemma sprints_sample_records : sprint_records [JDict sprint_1; JDict sprint_2].
Proof.
  intros x Hx.
  apply elem_of_cons in Hx as [->|Hx]; [|apply elem_of_cons in Hx as [->|Hx]].
  - exists sprint_1, [JDict s1_item_1; JDict s1_item_2].
    split; [reflexivity|]. split; [reflexivity|].
    intros y Hy. apply elem_of_cons in Hy as [->|Hy]; [reflexivity|].
    apply elem_of_cons in Hy as [->|Hy]; [reflexivity|]. by apply elem_of_nil in Hy.
  - exists sprint_2, [JDict s2_item_1].
    split; [reflexivity|]. split; [reflexivity|].
    intros y Hy. apply elem_of_cons in Hy as [->|Hy]; [reflexivity|].
    by apply elem_of_nil in Hy.
  - by apply elem_of_nil in Hx.
Qed.

Lemma get_user_sprint_items_of_records_witness :
  get_user_sprint_items fs_sprints "user1234" =
    py_dict [("user_id", JStr "user1234");
             ("sprints",
              JList (omap (sprint_info_for "user1234") [JDict sprint_1; JDict sprint_2]));
             ("total_items",
              JInt (Z.of_nat (length (filter (λ item, assigned_to "user1234" item)
                                        (concat (sprint_items <$>
                                                   [JDict sprint_1; JDict sprint_2]))))))].
Proof.
  apply (get_user_sprint_items_of_records fs_sprints sprints_doc
           [JDict sprint_1; JDict sprint_2] "user1234" eq_refl eq_refl).
  exact sprints_sample_records.
Defined.

Example get_user_sprint_items_sample :
  get_user_sprint_items fs_sprints "user1234" =
    py_dict [("user_id", JStr "user1234");
             ("sprints",
              JList [py_dict [("sprint_id", JStr "s1"); ("title", JStr "Discovery");
                              ("goal", JNull); ("items", JList [JDict s1_item_2])]]);
             ("total_items", JInt 1)].
Proof. vm_compute. reflexivity. Qed.

(** * What the websocket relay sends *)

Lemma text_chunk_other_author (event : Event) :
  author event ≠ "sprint_coordinator" → text_chunk event = None.
Proof. intros Hother. unfold text_chunk. by rewrite bool_decide_eq_false_2. Qed.

(** X13.  The websocket relay is blind to every author but the
    coordinator: taking all other authors' events out of the engine's run
    changes nothing of what is sent, neither the increments nor the closing
    frame. *)
Theorem forward_ignores_other_authors (run : engine_run) :
  forward (coordinator_only run) = forward run.
Proof.
  induction run as [| e | event rest IH]; [reflexivity..|].
  cbn [coordinator_only]. case_bool_decide as Hauthor.
  - cbn [forward]. destruct (text_chunk event); [|exact IH].
    case_bool_decide; [by rewrite IH|].
    destruct (is_final_response event); [reflexivity|exact IH].
  - cbn [forward]. by rewrite (text_chunk_other_author _ Hauthor).
Qed.

Lemma increments_sublist (run : engine_run) :
  increments run `sublist_of` omap text_chunk (run_events run).
Proof.
  induction run as [| e | event rest IH]; cbn; try constructor.
  destruct (text_chunk event) as [chunk|]; [|exact IH].
  case_bool_decide; [by constructor|].
  destruct (is_final_response event); [apply sublist_nil_l|by constructor].
Qed.

Lemma closing_cases (run : engine_run) :
  closing run = None ∨ closing run = Some "--streaming ended--" ∨
  closing run = Some "Something went wrong. Please try again.".
Proof.
  induction run as [| e | event rest IH]; cbn; [by left|by right; right|].
  destruct (text_chunk event); [|exact IH].
  case_bool_decide; [exact IH|].
  destruct (is_final_response event); [by right; left|exact IH].
Qed.

(** X14.  What the websocket relay sends in a turn is a run of text
    increments followed by at most one closing frame, the completion marker
    or the error message.  The increments are leading texts of the
    coordinator's events and keep the order in which the engine yielded
    them; nothing is sent after the closing frame. *)
Theorem forward_increments_in_order (run : engine_run) :
  ∃ chunks closing_frames,
    forward run = (chunks ++ closing_frames)%list ∧
    chunks `sublist_of` omap text_chunk (run_events run) ∧
    (closing_frames = [] ∨ closing_frames = ["--streaming ended--"] ∨
     closing_frames = ["Something went wrong. Please try again."]).
Proof.
  exists (increments run), (option_list (closing run)).
  split; [apply forward_increments_closing|].
  split; [apply increments_sublist|].
  destruct (closing_cases run) as [-> | [-> | ->]]; cbn; auto.
Qed.

(** * The legacy server-sent stream *)

Lemma sse_partials_types (event : Event) (session_id : string) :
  Forall (λ frame, frame_type frame = Some (JStr "final") ∨
                   frame_type frame = Some (JStr "partial"))
    (sse_partials event session_id).
Proof.
  unfold sse_partials. destruct (content event) as [c|]; [|constructor].
  destruct (parts c) as [ps|]; [|constructor].
  induction ps as [|p ps IH]; [constructor|]. cbn.
  destruct (part_text p) as [t|]; [|exact IH].
  case_bool_decide; [exact IH|]. constructor; [by right|exact IH].
Qed.

Lemma sse_events_end_once (session_id : string) (run : engine_run) :
  ∃ body last,
    sse_events session_id run = (body ++ [last])%list ∧
    (frame_type last = Some (JStr "complete") ∨ frame_type last = Some (JStr "error")) ∧
    Forall (λ frame, frame_type frame = Some (JStr "final") ∨
                     frame_type frame = Some (JStr "partial")) body.
Proof.
  induction run as [| e | event rest IH].
  - exists [], (sse_complete session_id). split; [reflexivity|]. split; [by left|constructor].
  - exists [], (sse_error (str_exn e) session_id).
    split; [reflexivity|]. split; [by right|constructor].
  - destruct IH as (body & last & Hrest & Hlast & Hbody). cbn [sse_events].
    destruct (is_final_response event).
    + destruct (first_part_text event) as [msg|final_response].
      * exists [], (sse_error msg session_id).
        split; [reflexivity|]. split; [by right|constructor].
      * exists (sse_final final_response session_id :: body), last.
        rewrite Hrest. split; [reflexivity|]. split; [exact Hlast|].
        constructor; [by left|exact Hbody].
    + exists (sse_partials event session_id ++ body)%list, last.
      rewrite Hrest. split; [by rewrite (assoc_L (++))|]. split; [exact Hlast|].
      apply Forall_app. split; [apply sse_partials_types|exact Hbody].
Qed.

(** X15.  Every stream of the legacy server-sent endpoint ends with
    exactly one terminal payload, [complete] or [error], as its last
    payload; every payload before it is [final] or [partial].  This holds
    for every engine run, also the runs on which the websocket relay sends
    no closing frame. *)
Theorem sse_stream_ends_once (run_async : string → string → string → engine_run)
    (DEFAULT_USER_ID : string) (agent_ready : bool)
    (active : gmap string entry) (session_id message : string) :
  ∃ body last,
    stream_agent_response_sse run_async DEFAULT_USER_ID agent_ready active
      session_id message = (body ++ [last])%list ∧
    (frame_type last = Some (JStr "complete") ∨ frame_type last = Some (JStr "error")) ∧
    Forall (λ frame, frame_type frame = Some (JStr "final") ∨
                     frame_type frame = Some (JStr "partial")) body.
Proof.
  unfold stream_agent_response_sse. destruct agent_ready.
  - destruct (active !! session_id).
    + apply sse_events_end_once.
    + eexists [], _. split; [reflexivity|]. split; [by right|constructor].
  - eexists [], _. split; [reflexivity|]. split; [by right|constructor].
Qed.

Example sse_on_run_final_without_text :
  sse_events "s1" run_final_without_text =
    [sse_partial "Hel" "s1"; sse_partial "lo" "s1";
     sse_error "list index out of range" "s1"].
Proof. reflexivity. Qed.

(** * The sprint item endpoint *)

(** X16.  [GET /api/sprints/{item_id}] never answers 404.  A tool reply
    that decodes to a value without an ["error"] entry is returned as
    decoded.  A tool reply that is a mapping with an ["error"] entry makes
    the endpoint raise 404 inside its [try]; the handler of that same [try]
    catches it, and what comes out is status 500 with the detail
    ["404: ..."].  Whatever the endpoint raises has status 500. *)
Theorem get_sprint_item_by_id_never_404 (tool : string → text)
    (py_str : json → string) (item_id : string) :
  (∀ data,
     json_loads (tool item_id) = Returns data →
     py_in "error" data = Returns false →
     get_sprint_item_by_id tool py_str item_id = Returns data) ∧
  (∀ reply,
     tool item_id = Encodes (JDict reply) →
     reply !! "error" = None →
     get_sprint_item_by_id tool py_str item_id = Returns (JDict reply)) ∧
  (∀ reply problem,
     tool item_id = Encodes (JDict reply) →
     reply !! "error" = Some problem →
     get_sprint_item_by_id tool py_str item_id =
       Raises (HTTPException 500 ("404: " +:+ py_str problem))) ∧
  (∀ e,
     get_sprint_item_by_id tool py_str item_id = Raises e →
     ∃ detail, e = HTTPException 500 detail).
Proof.
  unfold get_sprint_item_by_id. split; [|split; [|split]].
  - intros data -> Hin. cbn. by rewrite Hin.
  - intros reply -> Hnone. cbn.
    rewrite bool_decide_eq_false_2; [reflexivity|].
    intros [? ?]. congruence.
  - intros reply problem -> Hproblem. cbn.
    rewrite bool_decide_eq_true_2 by eauto. cbn. by rewrite Hproblem.
  - intros e.
    destruct (json_loads (tool item_id)) as [data|e1]; cbn; [|intros [= <-]; eauto].
    destruct (py_in "error" data) as [[]|e1]; cbn; [| |intros [= <-]; eauto].
    + destruct (py_getitem data "error"); cbn; intros [= <-]; eauto.
    + discriminate.
Qed.

Lemma get_sprint_item_by_id_never_404_witness :
  get_sprint_item_by_id
    (λ item_id, Encodes (get_sprint_item fs_sprints item_id))
    (λ v, match v with JStr s => s | _ => "" end) "s1_item_2" =
    Returns (get_sprint_item fs_sprints "s1_item_2") ∧
  get_sprint_item_by_id
    (λ item_id, Encodes (get_sprint_item fs_sprints item_id))
    (λ v, match v with JStr s => s | _ => "" end) "s9_item_9" =
    Raises (HTTPException 500 "404: Sprint item 's9_item_9' not found").
Proof.
  split.
  - refine (proj1 (get_sprint_item_by_id_never_404
                     (λ item_id, Encodes (get_sprint_item fs_sprints item_id))
                     (λ v, match v with JStr s => s | _ => "" end) "s1_item_2")
              (get_sprint_item fs_sprints "s1_item_2") _ _).
    + reflexivity.
    + vm_compute. reflexivity.
  - refine (proj1 (proj2 (proj2 (get_sprint_item_by_id_never_404
                     (λ item_id, Encodes (get_sprint_item fs_sprints item_id))
                     (λ v, match v with JStr s => s | _ => "" end) "s9_item_9")))
              {["error" := JStr "Sprint item 's9_item_9' not found"]}
              (JStr "Sprint item 's9_item_9' not found") _ _).
    + vm_compute. reflexivity.
    + reflexivity.
Defined.

(** * Segment updates, read back from a success *)

Lemma update_segment_in_inv (segments : list json) (segment_id : string)
    (updates_dict : json) (result : option (list json)) :
  update_segment_in segments segment_id updates_dict = Returns result →
  match result with
  | Some segments' =>
      ∃ i record,
        first_match_at "id" segment_id segments i record ∧
        segments' = <[i := updated_element record updates_dict]> segments
  | None => no_match "id" segment_id segments
  end.
Proof.
  revert result. induction segments as [|x rest IH]; intros result Hrun.
  - injection Hrun as <-. apply no_match_nil.
  - destruct x as [| | | | | |r]; try discriminate Hrun.
    cbn in Hrun.
    destruct (eq_str (default JNull (r !! "id")) segment_id) eqn:Hid.
    + apply eq_str_get_inv in Hid.
      assert (result = Some (updated_element r updates_dict :: rest)) as ->.
      { destruct updates_dict; cbn in Hrun |- *; congruence. }
      exists 0, r. split; [by apply first_match_at_here|reflexivity].
    + apply eq_str_get_inv_false in Hid.
      destruct (update_segment_in rest segment_id updates_dict) as [r'|e] eqn:Hrest;
        cbn in Hrun; [|discriminate Hrun].
      injection Hrun as <-.
      specialize (IH r' eq_refl).
      destruct r' as [segments'|]; cbn.
      * destruct IH as (i & record & Hfirst & ->).
        exists (S i), record. split; [by apply first_match_at_later|reflexivity].
      * by apply no_match_add.
Qed.

(** X17.  A segment update that replies with success changed one element
    of the stored list and nothing else: the patch decoded, the document
    is a mapping whose ["customer_segments"] is a list, the first record
    with the id is at some position [i], and the document after the call
    is the document before it with that element merged (mapping patch) or
    replaced (any other patch).  The list keeps its length and every other
    top-level key its value. *)
Theorem update_customer_segments_frame (io : io_fault) (fs : filesystem)
    (segment_id : string) (updates : text) :
  is_success (update_customer_segments io fs segment_id updates).2 →
  ∃ patch data segments i record,
    updates = Encodes patch ∧
    get_customer_segments fs = JDict data ∧
    data !! "customer_segments" = Some (JList segments) ∧
    first_match_at "id" segment_id segments i record ∧
    get_customer_segments (update_customer_segments io fs segment_id updates).1 =
      JDict (<["customer_segments" :=
                JList (<[i := updated_element record patch]> segments)]> data) ∧
    length (<[i := updated_element record patch]> segments) = length segments.
Proof.
  unfold get_customer_segments.
  intros Hsuccess.
  assert (∃ patch data segments i record,
            io = NoFault ∧ updates = Encodes patch ∧
            _load_json_file fs SEGMENTS_FILE = JDict data ∧
            data !! "customer_segments" = Some (JList segments) ∧
            first_match_at "id" segment_id segments i record)
    as (patch & data & segments & i & record & -> & -> & Hdata & Hsegs & Hfirst).
  { revert Hsuccess. unfold update_customer_segments.
    destruct updates as [raw|patch]; cbn [json_loads];
      [intros Hs; by apply error_payload_not_success in Hs|].
    destruct (_load_json_file fs SEGMENTS_FILE) as [| | | | | |data] eqn:Hdata;
      try (intros Hs; by apply error_payload_not_success in Hs).
    cbn [py_get mbind outcome_bind].
    destruct (py_iter (default (JList []) (data !! "customer_segments")))
      as [elements|e] eqn:Hiter; cbn [mbind outcome_bind];
      [|intros Hs; by apply error_payload_not_success in Hs].
    destruct (update_segment_in elements segment_id patch) as [[segments'|]|e]
      eqn:Hrun; try (intros Hs; by apply error_payload_not_success in Hs).
    apply update_segment_in_inv in Hrun as (i & record & Hfirst & ->).
    assert (data !! "customer_segments" = Some (JList elements)) as Hsegs.
    { destruct Hfirst as (Hi & _). by eapply py_iter_record. }
    destruct io; cbn [_save_json_file fst snd];
      try (intros Hs; by apply error_payload_not_success in Hs).
    intros _. by exists patch, data, elements, i, record. }
  exists patch, data, segments, i, record.
  split; [reflexivity|]. split; [exact Hdata|]. split; [exact Hsegs|].
  split; [exact Hfirst|]. split; [|apply length_insert].
  apply (update_customer_segments_first_match fs data segments segment_id patch
           i record Hdata Hsegs Hfirst).
Qed.

Lemma update_customer_segments_frame_witness :
  ∃ patch data segments i record,
    Encodes (JDict pain_points_patch) = Encodes patch ∧
    get_customer_segments fs_segments = JDict data ∧
    data !! "customer_segments" = Some (JList segments) ∧
    first_match_at "id" "seg_03" segments i record ∧
    get_customer_segments
      (update_customer_segments NoFault fs_segments "seg_03"
         (Encodes (JDict pain_points_patch))).1 =
      JDict (<["customer_segments" :=
                JList (<[i := updated_element record patch]> segments)]> data) ∧
    length (<[i := updated_element record patch]> segments) = length segments.
Proof.
  apply (update_customer_segments_frame NoFault fs_segments "seg_03"
           (Encodes (JDict pain_points_patch))).
  eexists. split; reflexivity.
Defined.

(** * Status updates, repeated *)

Lemma item_after_idemp (item : gmap string json) (status notes : string) :
  item_after (item_after item status notes) status notes = item_after item status notes.
Proof.
  apply map_eq. intros field.
  destruct (decide (field = "status")) as [->|Hs].
  { by rewrite !item_after_status. }
  destruct (decide (field = "notes")) as [->|Hn].
  { rewrite !item_after_notes. by case_bool_decide. }
  by rewrite !item_after_other.
Qed.

(** X18.  Repeating a status update that succeeded changes nothing more:
    the second call succeeds too and the sprints document after it is the
    document after the first. *)
Theorem update_sprint_item_status_idempotent (fs : filesystem)
    (item_id status notes : string) :
  is_success (update_sprint_item_status NoFault fs item_id status notes).2 →
  is_success
    (update_sprint_item_status NoFault
       (update_sprint_item_status NoFault fs item_id status notes).1
       item_id status notes).2 ∧
  get_sprint_items
    (update_sprint_item_status NoFault
       (update_sprint_item_status NoFault fs item_id status notes).1
       item_id status notes).1 =
    get_sprint_items (update_sprint_item_status NoFault fs item_id status notes).1.
Proof.
  intros Hsuccess.
  destruct (update_sprint_item_status_success_inv _ _ _ _ _ Hsuccess)
    as (_ & Hvalid & data & sprints & i & j & sprint & items & item &
        Hdata & Hsprints & Hfirst).
  rewrite (update_sprint_item_status_located fs data sprints item_id status notes
             i j sprint items item Hdata Hsprints Hvalid Hfirst).
  cbn [fst].
  assert (item_after item status notes !! "item_id" = Some (JStr item_id)) as Hid.
  { rewrite item_after_other by done.
    by destruct Hfirst as (_ & _ & (_ & Hid & _) & _). }
  pose proof (first_item_at_replace _ _ _ _ _ _ _ _ Hfirst Hid) as Hfirst'.
  match goal with |- context [_save_sprints_data NoFault fs (JDict ?d)] =>
    set (data' := d) end.
  assert (get_sprint_items (_save_sprints_data NoFault fs (JDict data')).1 = JDict data')
    as Hdata' by apply save_sprints_data_then_load.
  assert (data' !! "sprints" = Some _) as Hsprints' by apply lookup_insert_eq.
  rewrite (update_sprint_item_status_located _ data' _ item_id status notes
             i j _ _ _ Hdata' Hsprints' Hvalid Hfirst').
  split; [apply success_payload_is_success|].
  cbn [fst]. unfold get_sprint_items. rewrite !save_sprints_data_then_load.
  f_equal. subst data'.
  rewrite item_after_idemp.
  by rewrite !list_insert_insert_eq, !insert_insert_eq.
Qed.

Lemma update_sprint_item_status_idempotent_witness :
  is_success
    (update_sprint_item_status NoFault
       (update_sprint_item_status NoFault fs_sprints "s1_item_2" "completed" "ok").1
       "s1_item_2" "completed" "ok").2 ∧
  get_sprint_items
    (update_sprint_item_status NoFault
       (update_sprint_item_status NoFault fs_sprints "s1_item_2" "completed" "ok").1
       "s1_item_2" "completed" "ok").1 =
    get_sprint_items
      (update_sprint_item_status NoFault fs_sprints "s1_item_2" "completed" "ok").1.
Proof.
  apply (update_sprint_item_status_idempotent fs_sprints "s1_item_2" "completed" "ok").
  eexists. split; reflexivity.
Defined.

(** * Updates from several callers *)








